(** * Chennai vegetable price dashboard ([gro.py]): model and properties

    A shallow embedding of [parse_price], [scrape_vegetable_prices],
    [create_dashboard] and its callback [update_charts].

    - A Python [str] is a list of Unicode code points.
    - A Python [float] is an IEEE 754 binary64 value ([spec_float] with
      precision 53 and maximal exponent 1024).
    - Exceptions are explicit: a computation returns [Ok v] or [Raise e].
    - The network and the HTML parser are outside the program: the outcome of
      [requests.get] and the parsed document are inputs of the model. *)

From Stdlib Require Import ZArith NArith List Bool Lia String Ascii.
From Stdlib Require Import Floats.
Import ListNotations.

Local Open Scope Z_scope.

(** ** Exceptions *)

Module Exc.

(** The [requests.exceptions.RequestException] family. *)
Inductive request_exception : Type :=
| ConnectionError
| Timeout
| TooManyRedirects
| HTTPError (status_code : Z).

Inductive exc : Type :=
| RequestException (e : request_exception)
| KeyError (key : string)
| ValueError
| IndexError
| OverflowError.

Inductive result (A : Type) : Type :=
| Ok (a : A)
| Raise (e : exc).
Arguments Ok {A} a.
Arguments Raise {A} e.

Definition bind {A B : Type} (r : result A) (k : A -> result B) : result B :=
  match r with
  | Ok a => k a
  | Raise e => Raise e
  end.

(** [try: body  except: handler] (a bare [except] catches everything). *)
Definition try_except {A : Type} (body : result A) (handler : result A) : result A :=
  match body with
  | Ok a => Ok a
  | Raise _ => handler
  end.

(** [try: body  except requests.exceptions.RequestException as e: handler] *)
Definition try_except_RequestException {A : Type}
    (body : result A) (handler : request_exception -> result A) : result A :=
  match body with
  | Raise (RequestException e) => handler e
  | other => other
  end.

End Exc.
Import Exc.

Declare Scope py_scope.
Delimit Scope py_scope with py.
Notation "x <- c ;; k" := (bind c (fun x => k))
  (at level 61, c at next level, right associativity) : py_scope.
Local Open Scope py_scope.

(** ** Python strings *)

Module Str.

Abbreviation codepoint := N (only parsing).
Abbreviation str := (list N) (only parsing).

(** Decoding of the UTF-8 bytes of a Rocq string literal, used only to write
    Python literals such as ['per kg'] readably. *)
Fixpoint decode_utf8 (bs : list N) : str :=
  (match bs with
   | [] => []
   | b0 :: t0 =>
       if b0 <? 128 then b0 :: decode_utf8 t0
       else match t0 with
            | [] => []
            | b1 :: t1 =>
                if b0 <? 224 then
                  ((b0 - 192) * 64 + (b1 - 128)) :: decode_utf8 t1
                else match t1 with
                     | [] => []
                     | b2 :: t2 =>
                         if b0 <? 240 then
                           ((b0 - 224) * 4096 + (b1 - 128) * 64 + (b2 - 128))
                             :: decode_utf8 t2
                         else match t2 with
                              | [] => []
                              | b3 :: t3 =>
                                  ((b0 - 240) * 262144 + (b1 - 128) * 4096
                                   + (b2 - 128) * 64 + (b3 - 128))
                                    :: decode_utf8 t3
                              end
                     end
            end
   end)%N.

Definition u (s : string) : str :=
  decode_utf8 (List.map N_of_ascii (list_ascii_of_string s)).

(** [s.startswith(p)] *)
Fixpoint startswith (p s : str) : bool :=
  match p, s with
  | [], _ => true
  | _ :: _, [] => false
  | a :: p', b :: s' => (a =? b)%N && startswith p' s'
  end.

(** [sub in s] *)
Fixpoint contains (sub s : str) : bool :=
  startswith sub s
  || match s with
     | [] => false
     | _ :: t => contains sub t
     end.

(** [s.replace(old, new)] for a non-empty [old]: occurrences are found from
    the left and do not overlap.  [skip] counts the code points of a matched
    occurrence that are still to be jumped over. *)
Fixpoint replace_from (old new : str) (skip : nat) (s : str) : str :=
  match s with
  | [] => []
  | c :: t =>
      match skip with
      | S k => replace_from old new k t
      | O =>
          if startswith old s
          then new ++ replace_from old new (List.length old - 1) t
          else c :: replace_from old new O t
      end
  end.

(** [s.replace(old, new)]; with an empty [old], Python inserts [new] before
    every code point and at the end. *)
Definition replace (s old new : str) : str :=
  match old with
  | [] => new ++ flat_map (fun c => c :: new) s
  | _ :: _ => replace_from old new O s
  end.

(** [str.isspace] on one code point ([_PyUnicode_IsWhitespace]). *)
Definition isspace (c : codepoint) : bool :=
  ((9 <=? c) && (c <=? 13)
   || (28 <=? c) && (c <=? 32)
   || (c =? 133) || (c =? 160) || (c =? 5760)
   || (8192 <=? c) && (c <=? 8202)
   || (c =? 8232) || (c =? 8233) || (c =? 8239) || (c =? 8287)
   || (c =? 12288))%N.

Fixpoint lstrip (s : str) : str :=
  match s with
  | [] => []
  | c :: t => if isspace c then lstrip t else s
  end.

Fixpoint rstrip (s : str) : str :=
  match s with
  | [] => []
  | c :: t =>
      match rstrip t with
      | [] => if isspace c then [] else [c]
      | t' => c :: t'
      end
  end.

(** [s.strip()] *)
Definition strip (s : str) : str := rstrip (lstrip s).

(** [s.split(sep)] for a non-empty [sep]: the pieces between the
    non-overlapping occurrences of [sep], found from the left.  The result
    always has at least one piece. *)
Fixpoint split_from (sep : str) (skip : nat) (s : str) : list str :=
  match s with
  | [] => [[]]
  | c :: t =>
      match skip with
      | S k => split_from sep k t
      | O =>
          if startswith sep s
          then [] :: split_from sep (List.length sep - 1) t
          else match split_from sep O t with
               | piece :: pieces => (c :: piece) :: pieces
               | [] => [[c]]
               end
      end
  end.

(** [s.split(sep)]; an empty separator raises [ValueError]. *)
Definition split (s sep : str) : result (list str) :=
  match sep with
  | [] => Raise ValueError
  | _ :: _ => Ok (split_from sep O s)
  end.

(** [l[i]] on a list, for [i >= 0]. *)
Definition getitem {A : Type} (l : list A) (i : nat) : result A :=
  match nth_error l i with
  | Some x => Ok x
  | None => Raise IndexError
  end.

(** [str(n)] for an integer. *)
Fixpoint of_uint (d : Decimal.uint) : str :=
  (match d with
   | Decimal.Nil => []
   | Decimal.D0 r => 48 :: of_uint r
   | Decimal.D1 r => 49 :: of_uint r
   | Decimal.D2 r => 50 :: of_uint r
   | Decimal.D3 r => 51 :: of_uint r
   | Decimal.D4 r => 52 :: of_uint r
   | Decimal.D5 r => 53 :: of_uint r
   | Decimal.D6 r => 54 :: of_uint r
   | Decimal.D7 r => 55 :: of_uint r
   | Decimal.D8 r => 56 :: of_uint r
   | Decimal.D9 r => 57 :: of_uint r
   end)%N.

Definition of_int (n : Z) : str :=
  match Z.to_int n with
  | Decimal.Pos d => of_uint d
  | Decimal.Neg d => 45%N :: of_uint d
  end.

End Str.
Import Str.

(** ** Python floats *)

Module Float.

Abbreviation float := spec_float (only parsing).

Definition prec : Z := 53.
Definition emax : Z := 1024.

Definition nan : float := S754_nan.

Definition isnan (x : float) : bool :=
  match x with
  | S754_nan => true
  | _ => false
  end.

(** [x <= y] and [x >= y]: false as soon as one side is NaN. *)
Definition le (x y : float) : bool := SFleb x y.
Definition ge (x y : float) : bool := SFleb y x.
Definition lt (x y : float) : bool := SFltb x y.

(** The binary64 value nearest to [(-1)^neg * m * 10^e10] (ties to even);
    too large a magnitude gives an infinity, too small a zero. *)
Definition of_decimal (neg : bool) (m : N) (e10 : Z) : float :=
  match m with
  | N0 => S754_zero neg
  | Npos p =>
      if 0 <=? e10
      then binary_round prec emax neg (p * Z.to_pos (10 ^ e10)) 0
      else
        let '(q, e, l) :=
          SFdiv_core_binary prec emax (Zpos p) 0 (10 ^ (- e10)) 0 in
        binary_round_aux prec emax neg q e l
  end.

(** The float of an integer literal. *)
Definition of_Z (n : Z) : float :=
  of_decimal (n <? 0) (Z.abs_N n) 0.

(** [int(x)]: truncation towards zero; NaN and the infinities raise. *)
Definition to_int (x : float) : result Z :=
  match x with
  | S754_nan => Raise ValueError
  | S754_infinity _ => Raise OverflowError
  | S754_zero _ => Ok 0
  | S754_finite s m e =>
      let a := if 0 <=? e then Zpos m * 2 ^ e else Zpos m / 2 ^ (- e) in
      Ok (if s then - a else a)
  end.

(** *** [float(s)] on a string *)

(** Zero code points of the decimal-digit blocks of the Unicode Character
    Database (version 14.0, general category Nd); each block holds the ten
    digits 0 to 9 in order. *)
Definition decimal_zeros : list N :=
  [48; 1632; 1776; 1984; 2406; 2534; 2662; 2790; 2918; 3046; 3174; 3302;
   3430; 3558; 3664; 3792; 3872; 4160; 4240; 6112; 6160; 6470; 6608; 6784;
   6800; 6992; 7088; 7232; 7248; 42528; 43216; 43264; 43472; 43504; 43600;
   44016; 65296; 66720; 68912; 69734; 69872; 69942; 70096; 70384; 70736;
   70864; 71248; 71360; 71472; 71904; 72016; 72784; 73040; 73120; 92768;
   92864; 93008; 120782; 120792; 120802; 120812; 120822; 123200; 123632;
   125264; 130032]%N.

(** [Py_UNICODE_TODECIMAL] *)
Definition todecimal (c : codepoint) : option N :=
  match find (fun z => (z <=? c) && (c <? z + 10))%N decimal_zeros with
  | Some z => Some (c - z)%N
  | None => None
  end.

(** [_PyUnicode_TransformDecimalAndSpaceToASCII]: white space becomes a
    blank, a decimal digit of any script its ASCII digit, and the string is
    cut after the first other non-ASCII code point, replaced by ['?'].
    (CPython leaves an all-ASCII string as it is; code point 127 is refused
    by the parser on either path.) *)
Fixpoint transform (s : str) : str :=
  match s with
  | [] => []
  | c :: t =>
      if (c <? 127)%N then c :: transform t
      else if isspace c then 32%N :: transform t
      else match todecimal c with
           | Some d => (48 + d)%N :: transform t
           | None => [63%N]
           end
  end.

Definition isdigit (c : codepoint) : bool := ((48 <=? c) && (c <=? 57))%N.

(** [Py_ISSPACE]: the white space of the C locale. *)
Definition c_isspace (c : codepoint) : bool :=
  ((9 <=? c) && (c <=? 13) || (c =? 32))%N.

(** Removal of the underscores that group digits
    ([_Py_string_to_number_with_underscores]): an underscore is legal only
    between two digits.  [prev] is the previous code point. *)
Fixpoint drop_underscores (prev : codepoint) (s : str) : option str :=
  match s with
  | [] => if (prev =? 95)%N then None else Some []
  | c :: t =>
      if (c =? 95)%N then
        if isdigit prev then drop_underscores c t else None
      else if (prev =? 95)%N && negb (isdigit c) then None
      else match drop_underscores c t with
           | Some r => Some (c :: r)
           | None => None
           end
  end.

(** The longest prefix of digits, and what follows it. *)
Fixpoint span_digits (s : str) : str * str :=
  match s with
  | [] => ([], [])
  | c :: t =>
      if isdigit c
      then let '(ds, r) := span_digits t in (c :: ds, r)
      else ([], s)
  end.

(** The number written by a string of ASCII digits. *)
Definition digits_value (ds : str) : N :=
  fold_left (fun acc c => 10 * acc + (c - 48))%N ds 0%N.

Definition lower (c : codepoint) : codepoint :=
  if ((65 <=? c) && (c <=? 90))%N then (c + 32)%N else c.

(** An optional sign. *)
Definition take_sign (s : str) : bool * str :=
  match s with
  | c :: t =>
      if (c =? 45)%N then (true, t)
      else if (c =? 43)%N then (false, t)
      else (false, s)
  | [] => (false, s)
  end.

(** [_Py_parse_inf_or_nan] after the sign: ["inf"], ["infinity"] or ["nan"]
    in any case, and what follows. *)
Definition parse_inf_or_nan (neg : bool) (s : str) : option (float * str) :=
  let l := List.map lower s in
  if startswith (u "infinity") l then Some (S754_infinity neg, skipn 8 s)
  else if startswith (u "inf") l then Some (S754_infinity neg, skipn 3 s)
  else if startswith (u "nan") l then Some (S754_nan, skipn 3 s)
  else None.

(** An optional exponent [e[+-]digits]; without digits nothing is consumed. *)
Definition parse_exponent (s : str) : Z * str :=
  match s with
  | c :: t =>
      if ((c =? 101) || (c =? 69))%N then
        let '(eneg, t1) := take_sign t in
        let '(ed, r) := span_digits t1 in
        match ed with
        | [] => (0, s)
        | _ :: _ =>
            let e := Z.of_N (digits_value ed) in
            (if eneg then - e else e, r)
        end
      else (0, s)
  | [] => (0, s)
  end.

(** The decimal literal read by [strtod]: digits with an optional point and
    an optional exponent, at least one digit in the mantissa. *)
Definition parse_decimal (neg : bool) (s : str) : option (float * str) :=
  let '(ip, r1) := span_digits s in
  let '(fp, r2) :=
    match r1 with
    | c :: t => if (c =? 46)%N then span_digits t else ([], r1)
    | [] => ([], r1)
    end in
  match ip ++ fp with
  | [] => None
  | _ :: _ =>
      let '(e, r3) := parse_exponent r2 in
      Some (of_decimal neg (digits_value (ip ++ fp))
              (e - Z.of_nat (List.length fp)), r3)
  end.

(** [PyOS_string_to_double]: the whole string must be consumed. *)
Definition string_to_double (s : str) : option float :=
  let '(neg, s1) := take_sign s in
  let parsed :=
    match parse_decimal neg s1 with
    | Some r => Some r
    | None => parse_inf_or_nan neg s1
    end in
  match parsed with
  | Some (x, []) => Some x
  | _ => None
  end.

Fixpoint c_lstrip (s : str) : str :=
  match s with
  | [] => []
  | c :: t => if c_isspace c then c_lstrip t else s
  end.

Fixpoint c_rstrip (s : str) : str :=
  match s with
  | [] => []
  | c :: t =>
      match c_rstrip t with
      | [] => if c_isspace c then [] else [c]
      | t' => c :: t'
      end
  end.

(** [float(s)]: raises [ValueError] unless [s] is, between optional white
    space, a decimal literal, an infinity or a NaN. *)
Definition from_str (s : str) : result float :=
  match drop_underscores 0%N (transform s) with
  | None => Raise ValueError
  | Some s1 =>
      match string_to_double (c_rstrip (c_lstrip s1)) with
      | Some x => Ok x
      | None => Raise ValueError
      end
  end.

End Float.
Import Float.

(** ** The parsed HTML document *)

(** What [BeautifulSoup(response.content, 'html.parser')] builds: a tree of
    tags and strings.  The [class] attribute of a tag is the list of its
    tokens. *)
Module Soup.

#[local] Unset Elimination Schemes.
Inductive node : Type :=
| NavigableString (s : str)
| Tag (name : string) (class_ : list string) (contents : list node).
#[local] Set Elimination Schemes.

(** All the nodes below a node, in document order. *)
Fixpoint descendants (n : node) : list node :=
  match n with
  | NavigableString _ => []
  | Tag _ _ cs => flat_map (fun c => c :: descendants c) cs
  end.

(** [n.text]: the strings below the node, concatenated. *)
Fixpoint text (n : node) : str :=
  match n with
  | NavigableString s => s
  | Tag _ _ cs => flat_map text cs
  end.

Definition is_tag (name : string) (n : node) : bool :=
  match n with
  | Tag nm _ _ => String.eqb nm name
  | NavigableString _ => false
  end.

(** [n.find_all(name)] *)
Definition find_all (n : node) (name : string) : list node :=
  filter (is_tag name) (descendants n).

(** A [class] filter given as a string matches a tag when one of the tag's
    class tokens is that string, or the whole attribute value is. *)
Definition has_class (cls : string) (n : node) : bool :=
  match n with
  | Tag _ tokens _ =>
      existsb (String.eqb cls) tokens
      || String.eqb (String.concat " " tokens) cls
  | NavigableString _ => false
  end.

(** [n.find(name, {'class': cls})]: the first match, or [None]. *)
Definition find (n : node) (name cls : string) : option node :=
  List.find (fun d => is_tag name d && has_class cls d) (descendants n).

End Soup.
Import Soup.

(** ** Data frames *)

Module Pandas.

(** One element of [data]: the dict appended by the scraper. *)
Record Row : Type := mkRow
  { Vegetable : str;
    Price_Range : str;
    Min_Price : float }.

Record DataFrame : Type := mkDataFrame
  { columns : list string;
    records : list Row }.

(** [pd.DataFrame(data)] on a list of dicts: the columns are the keys of the
    dicts, so that an empty list gives a frame without any column. *)
Definition pd_DataFrame (data : list Row) : DataFrame :=
  {| columns := match data with
                | [] => []
                | _ :: _ => ["Vegetable"; "Price Range"; "Min Price"]%string
                end;
     records := data |}.

(** [pd.DataFrame()] *)
Definition pd_DataFrame_empty : DataFrame := pd_DataFrame [].

Definition has_column (df : DataFrame) (key : string) : bool :=
  existsb (String.eqb key) (columns df).

(** [df['Min Price']]: the column, or [KeyError] when the frame has no such
    column. *)
Definition getitem_Min_Price (df : DataFrame) : result (list float) :=
  if has_column df "Min Price"
  then Ok (List.map Min_Price (records df))
  else Raise (KeyError "Min Price").

(** [df['Vegetable']] *)
Definition getitem_Vegetable (df : DataFrame) : result (list str) :=
  if has_column df "Vegetable"
  then Ok (List.map Vegetable (records df))
  else Raise (KeyError "Vegetable").

(** [Series.min()] and [Series.max()]: NaN entries are skipped; the result
    is NaN when nothing is left.  (Which of two equal floats, [0.0] and
    [-0.0], is returned makes no difference to the comparisons made with the
    result.) *)
Definition Series_min (s : list float) : float :=
  match filter (fun x => negb (isnan x)) s with
  | [] => nan
  | x :: r => fold_left (fun m v => if lt v m then v else m) r x
  end.

Definition Series_max (s : list float) : float :=
  match filter (fun x => negb (isnan x)) s with
  | [] => nan
  | x :: r => fold_left (fun m v => if lt m v then v else m) r x
  end.

(** [s >= x], [s <= x] and [a & b] on series. *)
Definition Series_ge (s : list float) (x : float) : list bool :=
  List.map (fun v => ge v x) s.

Definition Series_le (s : list float) (x : float) : list bool :=
  List.map (fun v => le v x) s.

Fixpoint Series_and (a b : list bool) : list bool :=
  match a, b with
  | x :: a', y :: b' => (x && y) :: Series_and a' b'
  | _, _ => []
  end.

(** The rows of [rows] at which the mask is true. *)
Fixpoint select (rows : list Row) (mask : list bool) : list Row :=
  match rows, mask with
  | r :: rows', b :: mask' =>
      if b then r :: select rows' mask' else select rows' mask'
  | _, _ => []
  end.

(** [df[mask]] *)
Definition getitem_mask (df : DataFrame) (mask : list bool) : DataFrame :=
  {| columns := columns df; records := select (records df) mask |}.

(** [df.to_dict('records')] *)
Definition to_dict_records (df : DataFrame) : list Row := records df.

End Pandas.
Import Pandas.

(** ** [gro.py] *)

Definition RUPEE : str := Eval cbv in u "₹".
Definition PER_KG : str := Eval cbv in u "per kg".
Definition HYPHEN : str := Eval cbv in u "-".

(** [parse_price(price_str)]: [Ok None] is Python's [None]. *)
Definition parse_price (price_str : str) : result (option float) :=
  try_except
    (let price := strip (replace (replace price_str RUPEE []) PER_KG []) in
     price <- (if contains HYPHEN price
               then pieces <- split price HYPHEN ;; getitem pieces 0
               else Ok price) ;;
     x <- from_str price ;;
     Ok (Some x))
    (Ok None).

(** The text [parse_price] converts: glyph and unit removed, then trimmed. *)
Definition cleaned (price_str : str) : str :=
  strip (replace (replace price_str RUPEE []) PER_KG []).

(** What precedes the first hyphen of the cleaned text (all of it when there
    is no hyphen): the first bound of the range. *)
Definition candidate (price_str : str) : str :=
  hd [] (split_from HYPHEN 0 (cleaned price_str)).

(** The answer of the network to [requests.get(url)]: its status and, for
    [content], the tree that [BeautifulSoup(response.content, 'html.parser')]
    builds from its body.  The model starts from a body the parser accepts:
    markup the parser rejects makes the constructor raise, inside the [try]
    and without being a request exception, and is outside the model. *)
Record Response : Type := mkResponse
  { status_code : Z;
    content : node }.

(** [response.raise_for_status()] *)
Definition raise_for_status (response : Response) : result unit :=
  if (400 <=? status_code response) && (status_code response <? 600)
  then Raise (RequestException (HTTPError (status_code response)))
  else Ok tt.

(** The statuses [raise_for_status] lets through: all but 4xx and 5xx. *)
Definition status_ok (response : Response) : Prop :=
  ~ (400 <= status_code response < 600).

Definition TABLE_CLASS : string :=
  "table table-bordered table-striped gold-rates".

(** The body of the [for row in ...] loop, on the list [data] built so far. *)
Definition scrape_row (data : list Row) (row : node) : result (list Row) :=
  let columns := find_all row "td" in
  if (3 <=? List.length columns)%nat then
    c1 <- getitem columns 1 ;;
    let vegetable_name := strip (text c1) in
    c2 <- getitem columns 2 ;;
    let price_range := strip (text c2) in
    price <- parse_price price_range ;;
    match price with
    | Some p =>
        Ok (data ++ [ {| Vegetable := vegetable_name;
                         Price_Range := price_range;
                         Min_Price := p |} ])
    | None => Ok data
    end
  else Ok data.

Fixpoint scrape_rows (rows : list node) (data : list Row) : result (list Row) :=
  match rows with
  | [] => Ok data
  | row :: rest => data' <- scrape_row data row ;; scrape_rows rest data'
  end.

(** [scrape_vegetable_prices()], given what [requests.get(url)] does: it
    returns a response (here with its body already parsed, see [Response]) or
    raises.  (The message printed by the handler is not modelled.) *)
Definition scrape_vegetable_prices (get : result Response) : result DataFrame :=
  try_except_RequestException
    (response <- get ;;
     _ <- raise_for_status response ;;
     let soup := content response in
     let table := find soup "table" TABLE_CLASS in
     data <- match table with
             | Some tbl => scrape_rows (skipn 2 (find_all tbl "tr")) []
             | None => Ok []
             end ;;
     Ok (pd_DataFrame data))
    (fun _ => Ok pd_DataFrame_empty).

(** *** The dashboard *)

Record RangeSlider : Type := mkRangeSlider
  { slider_min : float;
    slider_max : float;
    slider_value : list float;
    slider_marks : list (Z * str);
    slider_step : Z }.

Record BarFigure : Type := mkBar
  { bar_x : list str;
    bar_y : list float;
    bar_color : list float }.

Record Histogram : Type := mkHistogram
  { hist_x : list float;
    hist_nbins : Z }.

(** [range(start, stop, step)] for a positive [step]. *)
Definition py_range (start stop step : Z) : list Z :=
  List.map (fun i => start + step * Z.of_nat i)
    (seq 0 (Z.to_nat ((stop - start + step - 1) / step))).

(** [px.bar(df, x='Vegetable', y='Min Price', color='Min Price')] *)
Definition px_bar (df : DataFrame) : result BarFigure :=
  x <- getitem_Vegetable df ;;
  y <- getitem_Min_Price df ;;
  Ok {| bar_x := x; bar_y := y; bar_color := y |}.

(** [px.histogram(df, x='Min Price', nbins=20)] *)
Definition px_histogram (df : DataFrame) : result Histogram :=
  x <- getitem_Min_Price df ;;
  Ok {| hist_x := x; hist_nbins := 20 |}.

(** The callback [update_charts(price_range)]; [df] is the variable of
    [create_dashboard] it closes over. *)
Definition update_charts (df : DataFrame) (price_range : list float)
  : result (BarFigure * Histogram * list Row) :=
  col1 <- getitem_Min_Price df ;;
  low <- getitem price_range 0 ;;
  col2 <- getitem_Min_Price df ;;
  high <- getitem price_range 1 ;;
  let filtered_df :=
    getitem_mask df (Series_and (Series_ge col1 low) (Series_le col2 high)) in
  bar_fig <- px_bar filtered_df ;;
  hist_fig <- px_histogram filtered_df ;;
  Ok (bar_fig, hist_fig, to_dict_records filtered_df).

Record Dash : Type := mkDash
  { price_filter : RangeSlider;
    price_table_data : list Row;
    price_filter_callback :
      list float -> result (BarFigure * Histogram * list Row) }.

(** [create_dashboard()]: the arguments of the layout are evaluated in the
    order of the source, then the callback is registered.  The marks are a
    mathematical list: the memory that the dict of the source needs is not
    modelled, so that a dashboard built here may, in the program, exhaust
    memory when [int(max) - int(min)] is huge. *)
Definition create_dashboard (get : result Response) : result Dash :=
  df <- scrape_vegetable_prices get ;;
  c <- getitem_Min_Price df ;; let min := Series_min c in
  c <- getitem_Min_Price df ;; let max := Series_max c in
  c <- getitem_Min_Price df ;; let v0 := Series_min c in
  c <- getitem_Min_Price df ;; let v1 := Series_max c in
  c <- getitem_Min_Price df ;; start <- to_int (Series_min c) ;;
  c <- getitem_Min_Price df ;; stop <- to_int (Series_max c) ;;
  let marks := List.map (fun i => (i, RUPEE ++ of_int i)) (py_range start stop 20) in
  Ok {| price_filter :=
          {| slider_min := min; slider_max := max; slider_value := [v0; v1];
             slider_marks := marks; slider_step := 5 |};
        price_table_data := to_dict_records df;
        price_filter_callback := update_charts df |}.

(** ** Descriptions used in the statements *)

(** The record a table row gives, if any: a row needs three cells and a price
    text that parses; the name is the trimmed text of the second cell and the
    price range the trimmed text of the third. *)
Definition row_record (row : node) : option Row :=
  match find_all row "td" with
  | _ :: c1 :: c2 :: _ =>
      match parse_price (strip (text c2)) with
      | Ok (Some p) =>
          Some {| Vegetable := strip (text c1);
                  Price_Range := strip (text c2);
                  Min_Price := p |}
      | _ => None
      end
  | _ => None
  end.

(** The records of the rows that give one, in the order of the rows. *)
Definition rows_records (rows : list node) : list Row :=
  flat_map (fun row => match row_record row with
                       | Some r => [r]
                       | None => []
                       end) rows.

(** The numbers written in a price range: the hyphen-separated pieces of the
    cleaned text that convert to a float. *)
Definition bounds (raw_range : str) : list float :=
  flat_map (fun piece => match from_str piece with
                         | Ok x => [x]
                         | Raise _ => []
                         end)
    (split_from HYPHEN 0 (cleaned raw_range)).

(** The lowest bound of a price range, in the words of the specification:
    the least of the numbers written in it. *)
Definition lowest_bound (raw_range : str) : float :=
  Series_min (bounds raw_range).

(** ** Documents used as examples *)

Module Fixture.

Definition td (s : string) : node := Tag "td" [] [NavigableString (u s)].
Definition th (s : string) : node := Tag "th" [] [NavigableString (u s)].
Definition tr (cells : list node) : node := Tag "tr" [] cells.

Definition price_row (n name price : string) : node :=
  tr [td n; td name; td price].

Definition title_row : node := tr [th "Chennai vegetable prices"].
Definition header_row : node := tr [th "S.No"; th "Vegetable"; th "Price"].

Definition gold_rates (rows : list node) : node :=
  Tag "table"
    ["table"; "table-bordered"; "table-striped"; "gold-rates"]%string rows.

Definition page (body : list node) : node :=
  Tag "[document]" []
    [Tag "html" []
       [Tag "body" [] (Tag "h1" [] [NavigableString (u "Prices")] :: body)]].

(** Three rows with a price and one without. *)
Definition four_rows : node :=
  page [gold_rates [title_row; header_row;
                    price_row "1" " Tomato " "₹40-50 per kg";
                    price_row "2" "Onion" "₹45 per kg";
                    price_row "3" "Okra" "not available";
                    price_row "4" "Carrot" "₹30-20 per kg"]].

(** A row whose price text is the word [nan]. *)
Definition nan_price : node :=
  page [gold_rates [title_row; header_row;
                    price_row "1" "Tomato" "₹40-50 per kg";
                    price_row "2" "Okra" "nan"]].

(** A page without the price table. *)
Definition no_table : node :=
  page [Tag "table" ["table"]%string [title_row; header_row;
                               price_row "1" "Tomato" "40"]].

(** A table in which no row has a price. *)
Definition no_price : node :=
  page [gold_rates [title_row; header_row;
                    price_row "1" "Tomato" "-";
                    price_row "2" "Onion" "sold out";
                    tr [td "3"; td "Okra"]]].

Definition tomato : Row :=
  {| Vegetable := u "Tomato"; Price_Range := u "₹40-50 per kg";
     Min_Price := Prim2SF 40%float |}.
Definition onion : Row :=
  {| Vegetable := u "Onion"; Price_Range := u "₹45 per kg";
     Min_Price := Prim2SF 45%float |}.
Definition carrot : Row :=
  {| Vegetable := u "Carrot"; Price_Range := u "₹30-20 per kg";
     Min_Price := Prim2SF 30%float |}.
Definition okra_nan : Row :=
  {| Vegetable := u "Okra"; Price_Range := u "nan"; Min_Price := nan |}.

End Fixture.

(** ** More documents used as examples *)

Module Sample.

(** A row whose price text is the word [inf]. *)
Definition inf_price : node :=
  Fixture.page
    [Fixture.gold_rates
       [Fixture.title_row; Fixture.header_row;
        Fixture.price_row "1" "Tomato" "₹40-50 per kg";
        Fixture.price_row "2" "Okra" "inf"]].

(** A table whose only price text is the word [nan]. *)
Definition only_nan : node :=
  Fixture.page
    [Fixture.gold_rates
       [Fixture.title_row; Fixture.header_row;
        Fixture.price_row "1" "Okra" "nan"]].

Definition okra_inf : Row :=
  {| Vegetable := u "Okra"; Price_Range := u "inf";
     Min_Price := S754_infinity false |}.

End Sample.

(** The dashboard built over a Dataset: what [create_dashboard] returns when
    the two conversions to [int] give [start] and [stop]. *)
Definition dashboard_of (D : list Row) (start stop : Z) : Dash :=
  let col := List.map Min_Price D in
  {| price_filter :=
       {| slider_min := Series_min col; slider_max := Series_max col;
          slider_value := [Series_min col; Series_max col];
          slider_marks :=
            List.map (fun i => (i, RUPEE ++ of_int i)) (py_range start stop 20);
          slider_step := 5 |};
     price_table_data := D;
     price_filter_callback := update_charts (pd_DataFrame D) |}.

(** ** Classes of floats *)

(** The sign bit of a float is set: a negative number, [-0.0] or the negative
    infinity. *)
Definition is_negative (x : float) : bool :=
  match x with
  | S754_zero s | S754_infinity s | S754_finite s _ _ => s
  | S754_nan => false
  end.

Definition is_infinite (x : float) : bool :=
  match x with
  | S754_infinity _ => true
  | _ => false
  end.

(** * Properties *)

(** ** Strings *)

Section StringLemmas.

Lemma startswith_head_neq (o c : codepoint) (old s : str) :
  c <> o -> startswith (o :: old) (c :: s) = false.
Proof.
  intros Hne. simpl.
  destruct (N.eqb_spec o c) as [->|_]; [congruence | reflexivity].
Qed.

(** A prefix that never contains the first code point of [old] is left
    alone by [replace]. *)
Lemma replace_from_app_prefix (o : codepoint) (old new d s : str) :
  Forall (fun c => c <> o) d ->
  replace_from (o :: old) new 0 (d ++ s)
  = d ++ replace_from (o :: old) new 0 s.
Proof.
  induction 1 as [|c d Hc _ IH]; [reflexivity|].
  change ((c :: d) ++ s) with (c :: (d ++ s)).
  cbn [replace_from]. rewrite (startswith_head_neq o c old (d ++ s) Hc).
  rewrite IH. reflexivity.
Qed.

Lemma replace_app_prefix (o : codepoint) (old new d s : str) :
  Forall (fun c => c <> o) d ->
  replace (d ++ s) (o :: old) new = d ++ replace s (o :: old) new.
Proof. apply replace_from_app_prefix. Qed.

Lemma replace_cons (o c : codepoint) (old new s : str) :
  c <> o ->
  replace (c :: s) (o :: old) new = c :: replace s (o :: old) new.
Proof.
  intros Hc. apply (replace_app_prefix o old new [c] s).
  constructor; [exact Hc | constructor].
Qed.

Lemma lstrip_nonspace (c : codepoint) (s : str) :
  isspace c = false -> lstrip (c :: s) = c :: s.
Proof. intros H. simpl. rewrite H. reflexivity. Qed.

Lemma rstrip_cons_nonspace (c : codepoint) (s : str) :
  isspace c = false -> rstrip (c :: s) = c :: rstrip s.
Proof.
  intros H. simpl. destruct (rstrip s); [rewrite H|]; reflexivity.
Qed.

Lemma rstrip_app_nonspace (d s : str) :
  Forall (fun c => isspace c = false) d ->
  rstrip (d ++ s) = d ++ rstrip s.
Proof.
  induction 1 as [|c d Hc _ IH]; [reflexivity|].
  change ((c :: d) ++ s) with (c :: (d ++ s)).
  rewrite (rstrip_cons_nonspace _ _ Hc), IH. reflexivity.
Qed.

Lemma contains_hyphen_app (d r : str) :
  contains HYPHEN (d ++ 45%N :: r) = true.
Proof.
  induction d as [|c d IH]; [reflexivity|].
  change ((c :: d) ++ 45%N :: r) with (c :: (d ++ 45%N :: r)).
  cbn [contains]. rewrite IH. apply orb_true_r.
Qed.

Lemma split_from_hyphen_nil (r : str) :
  split_from HYPHEN 0 (45%N :: r) = [] :: split_from HYPHEN 0 r.
Proof. reflexivity. Qed.

(** The first piece of a split is what precedes the first separator. *)
Lemma split_from_hyphen_app (d r : str) :
  Forall (fun c => c <> 45%N) d ->
  split_from HYPHEN 0 (d ++ 45%N :: r) = d :: split_from HYPHEN 0 r.
Proof.
  induction 1 as [|c d Hc _ IH]; [reflexivity|].
  change ((c :: d) ++ 45%N :: r) with (c :: (d ++ 45%N :: r)).
  cbn [split_from]. unfold HYPHEN at 1.
  rewrite (startswith_head_neq 45%N c [] _ Hc).
  rewrite IH. reflexivity.
Qed.

(** Without a separator, the split is the string itself. *)
Lemma split_from_no_hyphen (s : str) :
  contains HYPHEN s = false -> split_from HYPHEN 0 s = [s].
Proof.
  induction s as [|c s IH]; [reflexivity|].
  cbn [contains]. intros H. apply orb_false_elim in H as [H1 H2].
  cbn [split_from]. rewrite H1, (IH H2). reflexivity.
Qed.

Lemma split_from_nonempty (sep : str) (k : nat) (s : str) :
  split_from sep k s <> [].
Proof.
  revert k. induction s as [|c s IH]; intros k; [discriminate|].
  destruct k as [|k]; cbn [split_from]; [|apply IH].
  destruct (startswith sep (c :: s)); [discriminate|].
  destruct (split_from sep 0 s); discriminate.
Qed.

End StringLemmas.

(** ** [float(s)] *)

Section FloatLemmas.

Lemma isdigit_range (c : codepoint) :
  isdigit c = true <-> (48 <= c <= 57)%N.
Proof. unfold isdigit. rewrite andb_true_iff, !N.leb_le. reflexivity. Qed.

Lemma span_digits_all (d : str) :
  Forall (fun c => isdigit c = true) d -> span_digits d = (d, []).
Proof.
  induction 1 as [|c d Hc _ IH]; [reflexivity|].
  cbn [span_digits]. rewrite Hc, IH. reflexivity.
Qed.

Lemma transform_digits (d : str) :
  Forall (fun c => isdigit c = true) d -> transform d = d.
Proof.
  induction 1 as [|c d Hc _ IH]; [reflexivity|].
  cbn [transform]. apply isdigit_range in Hc.
  destruct (N.ltb_spec c 127); [|lia]. rewrite IH. reflexivity.
Qed.

Lemma drop_underscores_digits (d : str) (prev : codepoint) :
  Forall (fun c => isdigit c = true) d ->
  (d = [] -> prev <> 95%N) ->
  drop_underscores prev d = Some d.
Proof.
  intros H. revert prev. induction H as [|c d Hc _ IH]; intros prev Hp.
  - cbn. destruct (N.eqb_spec prev 95); [exfalso; now apply Hp | reflexivity].
  - cbn [drop_underscores]. pose proof Hc as Hr. apply isdigit_range in Hr.
    destruct (N.eqb_spec c 95); [lia|].
    rewrite Hc. cbn [negb]. rewrite andb_false_r.
    rewrite IH; [reflexivity | intros _; lia].
Qed.

Lemma c_rstrip_digits (d : str) :
  Forall (fun c => isdigit c = true) d -> c_rstrip d = d.
Proof.
  induction 1 as [|c d Hc _ IH]; [reflexivity|].
  cbn [c_rstrip]. rewrite IH. apply isdigit_range in Hc.
  assert (Hs : c_isspace c = false).
  { unfold c_isspace.
    destruct (N.leb_spec 9 c), (N.leb_spec c 13), (N.eqb_spec c 32);
      cbn; try reflexivity; lia. }
  destruct d; [rewrite Hs|]; reflexivity.
Qed.

(** A non-empty string of ASCII digits converts to the float nearest to the
    number it writes. *)
Lemma from_str_digits (d : str) :
  d <> [] ->
  Forall (fun c => isdigit c = true) d ->
  from_str d = Ok (of_decimal false (digits_value d) 0).
Proof.
  intros Hne Hd. unfold from_str.
  rewrite (transform_digits d Hd).
  rewrite (drop_underscores_digits d 0%N Hd) by (intros; congruence).
  destruct d as [|c d]; [congruence|].
  pose proof (Forall_inv Hd) as Hc. apply isdigit_range in Hc.
  assert (Hl : c_lstrip (c :: d) = c :: d).
  { cbn [c_lstrip]. unfold c_isspace.
    destruct (N.leb_spec 9 c), (N.leb_spec c 13), (N.eqb_spec c 32);
      cbn; try reflexivity; lia. }
  rewrite Hl, (c_rstrip_digits _ Hd).
  unfold string_to_double, take_sign.
  destruct (N.eqb_spec c 45); [lia|]. destruct (N.eqb_spec c 43); [lia|].
  unfold parse_decimal. rewrite (span_digits_all _ Hd).
  rewrite app_nil_r. cbn [parse_exponent List.length Z.of_nat].
  rewrite Z.sub_0_r. reflexivity.
Qed.

Lemma from_str_empty : from_str [] = Raise ValueError.
Proof. reflexivity. Qed.

End FloatLemmas.

(** ** Checks of the model of the built-ins *)

Example replace_leftmost :
  replace (u "pper kger kg") PER_KG [] = u "per kg".
Proof. reflexivity. Qed.

Example strip_no_break_space :
  strip (160%N :: u " 40-50 " ++ [160%N; 10%N]) = u "40-50".
Proof. reflexivity. Qed.

Example split_keeps_empty_pieces :
  split (u "-40--50-") HYPHEN = Ok [[]; u "40"; []; u "50"; []].
Proof. reflexivity. Qed.

Example float_tenth :
  from_str (u "0.1") = Ok (S754_finite false 7205759403792794 (-56)).
Proof. vm_compute. reflexivity. Qed.

Example float_round_to_even :
  from_str (u "9007199254740993") = Ok (Prim2SF 9007199254740992%float).
Proof. vm_compute. reflexivity. Qed.

Example float_forms :
  from_str (u " 1_000.5e1 ") = Ok (Prim2SF 10005%float)
  /\ from_str (u "+.5") = Ok (Prim2SF 0.5%float)
  /\ from_str (u "1e400") = Ok (S754_infinity false)
  /\ from_str (u "-Infinity") = Ok (S754_infinity true)
  /\ from_str (u "NaN") = Ok S754_nan
  /\ from_str (u "٣٤") = Ok (Prim2SF 34%float).
Proof. repeat split; vm_compute; reflexivity. Qed.

Example float_rejects :
  from_str (u "") = Raise ValueError
  /\ from_str (u "1__0") = Raise ValueError
  /\ from_str (u "1e") = Raise ValueError
  /\ from_str (u "4 0") = Raise ValueError
  /\ from_str (u "0x10") = Raise ValueError
  /\ from_str (28%N :: u "1") = Raise ValueError.
Proof. repeat split. Qed.

Example int_truncates :
  to_int (of_decimal true 25 (-1)) = Ok (-2)
  /\ to_int nan = Raise ValueError
  /\ to_int (S754_infinity false) = Raise OverflowError.
Proof. repeat split. Qed.

Example range_step_20 : py_range 30 95 20 = [30; 50; 70; 90].
Proof. reflexivity. Qed.

(** ** [parse_price] *)

Section ParsePrice.

(** [parse_price] converts the candidate, and nothing else decides its
    result: both branches of the test for a hyphen agree with the first
    piece of the split. *)
Lemma parse_price_candidate (s : str) :
  parse_price s
  = match from_str (candidate s) with
    | Ok x => Ok (Some x)
    | Raise _ => Ok None
    end.
Proof.
  unfold parse_price, candidate. fold (cleaned s).
  destruct (contains HYPHEN (cleaned s)) eqn:Hc.
  - cbn [split HYPHEN bind]. fold HYPHEN.
    pose proof (split_from_nonempty HYPHEN 0 (cleaned s)) as Hne.
    destruct (split_from HYPHEN 0 (cleaned s)) as [|p ps]; [congruence|].
    cbn [getitem nth_error bind hd].
    destruct (from_str p); reflexivity.
  - rewrite (split_from_no_hyphen _ Hc). cbn [hd bind].
    destruct (from_str (cleaned s)); reflexivity.
Qed.

Lemma parse_price_returns (s : str) :
  exists r : option float, parse_price s = Ok r.
Proof.
  rewrite parse_price_candidate.
  destruct (from_str (candidate s)); eauto.
Qed.

Lemma digit_not_rupee (c : N) : isdigit c = true -> c <> 8377%N.
Proof. intros H ->. discriminate H. Qed.

Lemma digit_not_p (c : N) : isdigit c = true -> c <> 112%N.
Proof. intros H ->. discriminate H. Qed.

Lemma digit_not_hyphen (c : N) : isdigit c = true -> c <> 45%N.
Proof. intros H ->. discriminate H. Qed.

Lemma digit_not_space (c : N) : isdigit c = true -> isspace c = false.
Proof.
  intros H. apply isdigit_range in H.
  assert (Hc : In c [48; 49; 50; 51; 52; 53; 54; 55; 56; 57]%N)
    by (cbn [In]; lia).
  repeat (destruct Hc as [<-|Hc]; [reflexivity|]). destruct Hc.
Qed.

(** The cleaned text of [d-rest] still starts with [d-] when [d] is a
    non-empty string of digits. *)
Lemma cleaned_digits_hyphen (d rest : str) :
  d <> [] ->
  Forall (fun c => isdigit c = true) d ->
  exists rest', cleaned (d ++ 45%N :: rest) = d ++ 45%N :: rest'.
Proof.
  intros Hne Hd. unfold cleaned. unfold RUPEE, PER_KG.
  rewrite replace_app_prefix
    by (eapply Forall_impl; [|exact Hd]; apply digit_not_rupee).
  rewrite replace_cons by discriminate.
  rewrite replace_app_prefix
    by (eapply Forall_impl; [|exact Hd]; apply digit_not_p).
  rewrite replace_cons by discriminate.
  set (r := replace (replace rest _ _) _ _).
  unfold strip. destruct d as [|c d]; [congruence|].
  change ((c :: d) ++ 45%N :: r) with (c :: (d ++ 45%N :: r)).
  rewrite lstrip_nonspace by (apply digit_not_space, (Forall_inv Hd)).
  change (c :: (d ++ 45%N :: r)) with ((c :: d) ++ 45%N :: r).
  rewrite rstrip_app_nonspace
    by (eapply Forall_impl; [|exact Hd]; apply digit_not_space).
  rewrite rstrip_cons_nonspace by reflexivity.
  eauto.
Qed.

End ParsePrice.

(** C8: [parse_price] on the five inputs of the specification: 40.0 for
    "₹40-50 per kg", 45.0 for "₹45 per kg", [None] for the empty string and for
    "abc", and 30.0 (the value before the hyphen, not 20.0) for
    "₹30-20 per kg". *)
Theorem parse_price_examples :
  parse_price (u "₹40-50 per kg") = Ok (Some (Prim2SF 40%float))
  /\ parse_price (u "₹45 per kg") = Ok (Some (Prim2SF 45%float))
  /\ parse_price (u "") = Ok None
  /\ parse_price (u "abc") = Ok None
  /\ parse_price (u "₹30-20 per kg") = Ok (Some (Prim2SF 30%float))
  /\ Prim2SF 30%float <> Prim2SF 20%float.
Proof.
  repeat split; try (vm_compute; reflexivity).
  vm_compute. discriminate.
Qed.

(** C9: [parse_price] is total: on every string it returns a float or [None],
    and never raises. *)
Theorem parse_price_total (s : str) :
  (exists x : float, parse_price s = Ok (Some x)) \/ parse_price s = Ok None.
Proof.
  destruct (parse_price_returns s) as [[x|] H]; eauto.
Qed.

(** C10: when what is left after the glyph and the unit are removed and the
    text trimmed begins with a hyphen, [parse_price] returns [None]: the piece
    before that hyphen is empty and [float('')] raises. *)
Theorem parse_price_leading_hyphen (s rest : str) :
  cleaned s = 45%N :: rest -> parse_price s = Ok None.
Proof.
  intros H. rewrite parse_price_candidate. unfold candidate.
  rewrite H, split_from_hyphen_nil. reflexivity.
Qed.

Lemma parse_price_leading_hyphen_witness :
  parse_price (u "-5") = Ok None /\ parse_price (u "₹-5 per kg") = Ok None.
Proof.
  split.
  - apply (parse_price_leading_hyphen (u "-5") (u "5")). reflexivity.
  - apply (parse_price_leading_hyphen (u "₹-5 per kg") (u "5")). reflexivity.
Defined.

(** C3, as the specification states it, fails: text after the first hyphen is
    never looked at, so "40-50-60" and "40-abc" parse to 40.0. *)
Lemma parse_price_malformed_counterexample :
  parse_price (u "40-50-60") = Ok (Some (Prim2SF 40%float))
  /\ parse_price (u "40-abc") = Ok (Some (Prim2SF 40%float))
  /\ parse_price (u "40-50-60") <> Ok None
  /\ parse_price (u "40-abc") <> Ok None.
Proof.
  repeat split; try (vm_compute; reflexivity); vm_compute; discriminate.
Qed.

(** C3, amended: [parse_price] returns [None] when the text before the first
    hyphen does not convert to a float, and text after the first hyphen is not
    examined: for an input [d-rest] with [d] a non-empty string of ASCII digits
    it returns the float of [d] whatever [rest] is (more hyphens, letters,
    anything). *)
Theorem parse_price_first_bound_only :
  (forall (s : str) (e : exc),
      from_str (candidate s) = Raise e -> parse_price s = Ok None)
  /\ (forall d rest : str,
         d <> [] ->
         Forall (fun c => isdigit c = true) d ->
         parse_price (d ++ 45%N :: rest)
         = Ok (Some (of_decimal false (digits_value d) 0))).
Proof.
  split.
  - intros s e H. rewrite parse_price_candidate, H. reflexivity.
  - intros d rest Hne Hd. rewrite parse_price_candidate. unfold candidate.
    destruct (cleaned_digits_hyphen d rest Hne Hd) as [r ->].
    rewrite split_from_hyphen_app
      by (eapply Forall_impl; [|exact Hd]; apply digit_not_hyphen).
    cbn [hd]. rewrite (from_str_digits d Hne Hd). reflexivity.
Qed.

Lemma parse_price_first_bound_only_witness :
  parse_price (u "4a-50") = Ok None
  /\ parse_price (u "40" ++ 45%N :: u "50-60") = Ok (Some (Prim2SF 40%float))
  /\ parse_price (u "40" ++ 45%N :: u "abc") = Ok (Some (Prim2SF 40%float)).
Proof.
  destruct parse_price_first_bound_only as [Hnone Hsome].
  split; [|split].
  - apply (Hnone (u "4a-50") ValueError). reflexivity.
  - apply (Hsome (u "40") (u "50-60")).
    + discriminate.
    + repeat constructor.
  - apply (Hsome (u "40") (u "abc")).
    + discriminate.
    + repeat constructor.
Defined.

(** ** The order on floats *)

Section FloatOrder.

Lemma SFcompare_refl (x : float) :
  isnan x = false -> SFcompare x x = Some Eq.
Proof.
  destruct x as [[]|[]| |[] m e]; cbn; try reflexivity; try discriminate;
    intros _; rewrite Z.compare_refl;
    change (Pos.compare_cont Eq m m) with (Pos.compare m m);
    rewrite Pos.compare_refl; reflexivity.
Qed.

Lemma le_refl (x : float) : isnan x = false -> le x x = true.
Proof. intros H. unfold le, SFleb. rewrite (SFcompare_refl x H). reflexivity. Qed.

Lemma SFcompare_antisym (x y : float) :
  SFcompare y x = option_map CompOpp (SFcompare x y).
Proof.
  destruct x as [[]|[]| |[] mx ex], y as [[]|[]| |[] my ey];
    cbn; try reflexivity;
    rewrite (Z.compare_antisym ex ey);
    change (Pos.compare_cont Eq my mx) with (Pos.compare my mx);
    change (Pos.compare_cont Eq mx my) with (Pos.compare mx my);
    rewrite (Pos.compare_antisym mx my);
    destruct (ex ?= ey); cbn; try reflexivity;
    destruct (mx ?= my)%positive; reflexivity.
Qed.

Lemma lt_le (x y : float) : lt x y = true -> le x y = true.
Proof.
  unfold lt, le, SFltb, SFleb.
  destruct (SFcompare x y) as [[]|]; congruence.
Qed.

(** Two floats that are not NaN are comparable. *)
Lemma not_lt_ge (x y : float) :
  isnan x = false -> isnan y = false -> lt x y = false -> le y x = true.
Proof.
  intros Hx Hy. unfold lt, le, SFltb, SFleb.
  rewrite (SFcompare_antisym x y).
  destruct x as [[]|[]| |[] mx ex], y as [[]|[]| |[] my ey];
    try discriminate; cbn; try congruence;
    destruct (ex ?= ey); cbn; try congruence;
    destruct (Pos.compare_cont Eq mx my); cbn; congruence.
Qed.

Lemma le_trans (x y z : float) :
  le x y = true -> le y z = true -> le x z = true.
Proof.
  unfold le, SFleb.
  destruct x as [[]|[]| |[] mx ex], y as [[]|[]| |[] my ey],
           z as [[]|[]| |[] mz ez];
    cbn; try congruence;
    change (Pos.compare_cont Eq mx my) with (Pos.compare mx my);
    change (Pos.compare_cont Eq my mz) with (Pos.compare my mz);
    change (Pos.compare_cont Eq mx mz) with (Pos.compare mx mz);
    destruct (Z.compare_spec ex ey), (Z.compare_spec ey ez),
             (Z.compare_spec ex ez);
    try congruence; try lia; subst;
    destruct (Pos.compare_spec mx my), (Pos.compare_spec my mz),
             (Pos.compare_spec mx mz);
    cbn; try congruence; lia.
Qed.

End FloatOrder.

(** ** Series and frames *)

Section FrameLemmas.

Lemma filter_notnan_id (s : list float) :
  Forall (fun x => isnan x = false) s ->
  filter (fun x => negb (isnan x)) s = s.
Proof.
  induction 1 as [|x s Hx _ IH]; [reflexivity|].
  cbn [filter]. rewrite Hx, IH. reflexivity.
Qed.

(** The running minimum is below its start and below everything folded. *)
Lemma fold_min_below (r : list float) (x : float) :
  isnan x = false ->
  Forall (fun v => isnan v = false) r ->
  let m := fold_left (fun m v => if lt v m then v else m) r x in
  le m x = true /\ Forall (fun v => le m v = true) r.
Proof.
  intros Hx Hr. revert x Hx.
  induction Hr as [|v r Hv _ IH]; intros x Hx; cbn [fold_left].
  - split; [apply le_refl, Hx | constructor].
  - destruct (lt v x) eqn:Hlt.
    + destruct (IH v Hv) as [Hmv Hall]. split; [|constructor; assumption].
      eapply le_trans; [exact Hmv | apply lt_le, Hlt].
    + destruct (IH x Hx) as [Hmx Hall]. split; [exact Hmx|].
      constructor; [|exact Hall].
      eapply le_trans; [exact Hmx | apply not_lt_ge; assumption].
Qed.

Lemma fold_max_above (r : list float) (x : float) :
  isnan x = false ->
  Forall (fun v => isnan v = false) r ->
  let m := fold_left (fun m v => if lt m v then v else m) r x in
  le x m = true /\ Forall (fun v => le v m = true) r.
Proof.
  intros Hx Hr. revert x Hx.
  induction Hr as [|v r Hv _ IH]; intros x Hx; cbn [fold_left].
  - split; [apply le_refl, Hx | constructor].
  - destruct (lt x v) eqn:Hlt.
    + destruct (IH v Hv) as [Hvm Hall]. split; [|constructor; assumption].
      eapply le_trans; [apply lt_le, Hlt | exact Hvm].
    + destruct (IH x Hx) as [Hxm Hall]. split; [exact Hxm|].
      constructor; [|exact Hall].
      eapply le_trans; [apply not_lt_ge; eassumption | exact Hxm].
Qed.

Lemma Series_min_below (s : list float) :
  Forall (fun x => isnan x = false) s ->
  Forall (fun v => le (Series_min s) v = true) s.
Proof.
  intros Hs. unfold Series_min. rewrite (filter_notnan_id s Hs).
  destruct Hs as [|x r Hx Hr]; [constructor|].
  destruct (fold_min_below r x Hx Hr) as [H1 H2].
  constructor; assumption.
Qed.

Lemma Series_max_above (s : list float) :
  Forall (fun x => isnan x = false) s ->
  Forall (fun v => le v (Series_max s) = true) s.
Proof.
  intros Hs. unfold Series_max. rewrite (filter_notnan_id s Hs).
  destruct Hs as [|x r Hx Hr]; [constructor|].
  destruct (fold_max_above r x Hx Hr) as [H1 H2].
  constructor; assumption.
Qed.

(** Selecting by the conjunction of two masks computed from the price
    column is filtering by the conjunction of the two tests. *)
Lemma select_masks (f g : float -> bool) (rows : list Row) :
  select rows
    (Series_and (List.map f (List.map Min_Price rows))
                (List.map g (List.map Min_Price rows)))
  = filter (fun r => f (Min_Price r) && g (Min_Price r)) rows.
Proof.
  induction rows as [|r rows IH]; [reflexivity|].
  cbn [List.map Series_and select filter]. rewrite IH. reflexivity.
Qed.

Lemma filter_all (p : Row -> bool) (rows : list Row) :
  Forall (fun r => p r = true) rows -> filter p rows = rows.
Proof.
  induction 1 as [|r rows Hr _ IH]; [reflexivity|].
  cbn [filter]. rewrite Hr, IH. reflexivity.
Qed.

(** What the callback computes on a frame that has its columns. *)
Lemma update_charts_nonempty (D : list Row) (low high : float) :
  D <> [] ->
  let kept := filter (fun r => ge (Min_Price r) low && le (Min_Price r) high) D in
  update_charts (pd_DataFrame D) [low; high]
  = Ok ({| bar_x := List.map Vegetable kept;
           bar_y := List.map Min_Price kept;
           bar_color := List.map Min_Price kept |},
        {| hist_x := List.map Min_Price kept; hist_nbins := 20 |},
        kept).
Proof.
  intros HD kept.
  assert (Hcols : columns (pd_DataFrame D)
                  = ["Vegetable"; "Price Range"; "Min Price"]%string)
    by (destruct D; [congruence | reflexivity]).
  unfold update_charts, px_bar, px_histogram, getitem_Min_Price,
    getitem_Vegetable, has_column, getitem_mask, to_dict_records.
  cbn [columns records]. rewrite Hcols.
  change (records (pd_DataFrame D)) with D.
  change (existsb (String.eqb "Min Price") _) with true.
  change (existsb (String.eqb "Vegetable") _) with true.
  cbn [bind getitem nth_error].
  unfold Series_ge, Series_le. rewrite select_masks. fold kept.
  reflexivity.
Qed.

Lemma update_charts_empty (price_range : list float) :
  update_charts (pd_DataFrame []) price_range = Raise (KeyError "Min Price").
Proof. reflexivity. Qed.

End FrameLemmas.

(** On the frame of a non-empty list of records, the callback returns
    exactly the records within the range, both ends included, in order. *)
Lemma callback_filter_nonempty (D : list Row) (lo hi : float) :
  D <> [] ->
  exists bar_fig hist_fig filtered,
    update_charts (pd_DataFrame D) [lo; hi] = Ok (bar_fig, hist_fig, filtered)
    /\ filtered
       = filter (fun r => le lo (Min_Price r) && le (Min_Price r) hi) D
    /\ (forall r, In r filtered ->
                  In r D /\ le lo (Min_Price r) = true
                  /\ le (Min_Price r) hi = true)
    /\ (forall r, In r D -> le lo (Min_Price r) = true ->
                  le (Min_Price r) hi = true -> In r filtered).
Proof.
  intros HD. rewrite (update_charts_nonempty D lo hi HD).
  do 3 eexists. split; [reflexivity|]. split; [reflexivity|]. split.
  - intros r Hr. apply filter_In in Hr as [Hin Hb].
    apply andb_true_iff in Hb as [H1 H2]. auto.
  - intros r Hin H1 H2. apply filter_In. split; [exact Hin|].
    unfold ge, le in *. rewrite H1, H2. reflexivity.
Qed.

(** C5, as stated for every non-empty Dataset, fails when a record carries a
    NaN price: the text "nan" parses to NaN, [min] and [max] skip it, and both
    comparisons of the filter are false on it. *)
Lemma update_charts_full_range_counterexample :
  let D := [Fixture.tomato; Fixture.okra_nan] in
  let col := List.map Min_Price D in
  scrape_vegetable_prices (Ok (mkResponse 200 Fixture.nan_price))
  = Ok (pd_DataFrame D)
  /\ D <> []
  /\ (exists bar_fig hist_fig,
         update_charts (pd_DataFrame D) [Series_min col; Series_max col]
         = Ok (bar_fig, hist_fig, [Fixture.tomato]))
  /\ [Fixture.tomato] <> D.
Proof.
  cbv zeta. split; [vm_compute; reflexivity|].
  split; [discriminate|]. split; [|discriminate].
  do 2 eexists. vm_compute. reflexivity.
Qed.

(** C5, amended: for every non-empty Dataset [D] none of whose prices is NaN,
    the callback called with [min Min Price, max Min Price] returns all the
    records of [D], in the order of [D]. *)
Theorem update_charts_full_range (D : list Row) :
  D <> [] ->
  Forall (fun r => isnan (Min_Price r) = false) D ->
  let col := List.map Min_Price D in
  exists bar_fig hist_fig,
    update_charts (pd_DataFrame D) [Series_min col; Series_max col]
    = Ok (bar_fig, hist_fig, D).
Proof.
  intros HD Hnan col.
  rewrite (update_charts_nonempty D _ _ HD). do 2 eexists.
  assert (Hcol : Forall (fun x => isnan x = false) col)
    by (unfold col; apply Forall_map; exact Hnan).
  pose proof (Series_min_below col Hcol) as Hmin.
  pose proof (Series_max_above col Hcol) as Hmax.
  unfold col in Hmin, Hmax. rewrite Forall_map in Hmin, Hmax.
  rewrite filter_all; [reflexivity|].
  rewrite Forall_forall in *. intros r Hr.
  specialize (Hmin r Hr). specialize (Hmax r Hr).
  unfold ge, le, col in *. rewrite Hmin, Hmax. reflexivity.
Qed.

Lemma update_charts_full_range_witness :
  let D := [Fixture.tomato; Fixture.onion; Fixture.carrot] in
  exists bar_fig hist_fig,
    update_charts (pd_DataFrame D)
      [Series_min (List.map Min_Price D); Series_max (List.map Min_Price D)]
    = Ok (bar_fig, hist_fig, D).
Proof.
  apply (update_charts_full_range
           [Fixture.tomato; Fixture.onion; Fixture.carrot]).
  - discriminate.
  - repeat constructor.
Defined.

(** ** The scraper *)

Section Scraper.

Lemma raise_for_status_ok (response : Response) :
  status_ok response -> raise_for_status response = Ok tt.
Proof.
  unfold status_ok, raise_for_status. intros H.
  destruct (Z.leb_spec 400 (status_code response)),
           (Z.ltb_spec (status_code response) 600);
    cbn; try reflexivity; lia.
Qed.

Lemma raise_for_status_error (response : Response) :
  400 <= status_code response < 600 ->
  raise_for_status response
  = Raise (RequestException (HTTPError (status_code response))).
Proof.
  unfold raise_for_status. intros [H1 H2].
  apply Z.leb_le in H1. apply Z.ltb_lt in H2. rewrite H1, H2. reflexivity.
Qed.

(** One turn of the loop appends the record of the row, if it gives one. *)
Lemma scrape_row_record (data : list Row) (row : node) :
  scrape_row data row
  = Ok (data ++ match row_record row with
                | Some r => [r]
                | None => []
                end).
Proof.
  unfold scrape_row, row_record.
  destruct (find_all row "td") as [|c0 [|c1 [|c2 rest]]];
    try (cbn; rewrite app_nil_r; reflexivity).
  cbn [List.length Nat.leb getitem nth_error bind].
  destruct (parse_price_returns (strip (text c2))) as [[p|] ->]; cbn [bind].
  - reflexivity.
  - rewrite app_nil_r. reflexivity.
Qed.

(** The whole loop appends the records of the rows, in order. *)
Lemma scrape_rows_records (rows : list node) (data : list Row) :
  scrape_rows rows data = Ok (data ++ rows_records rows).
Proof.
  revert data. induction rows as [|row rows IH]; intros data.
  - cbn. rewrite app_nil_r. reflexivity.
  - cbn [scrape_rows]. rewrite scrape_row_record. cbn [bind].
    rewrite IH, <- app_assoc. reflexivity.
Qed.

Lemma scrape_request_exception (e : request_exception) :
  scrape_vegetable_prices (Raise (RequestException e)) = Ok (pd_DataFrame []).
Proof. reflexivity. Qed.

Lemma scrape_http_error (response : Response) :
  400 <= status_code response < 600 ->
  scrape_vegetable_prices (Ok response) = Ok (pd_DataFrame []).
Proof.
  intros H. unfold scrape_vegetable_prices. cbn [bind].
  rewrite (raise_for_status_error response H). reflexivity.
Qed.

Lemma scrape_no_table (response : Response) :
  status_ok response ->
  find (content response) "table" TABLE_CLASS = None ->
  scrape_vegetable_prices (Ok response) = Ok (pd_DataFrame []).
Proof.
  intros Hs Hf. unfold scrape_vegetable_prices. cbn [bind].
  rewrite (raise_for_status_ok response Hs). cbn [bind].
  rewrite Hf. reflexivity.
Qed.

Lemma scrape_table (response : Response) (tbl : node) :
  status_ok response ->
  find (content response) "table" TABLE_CLASS = Some tbl ->
  scrape_vegetable_prices (Ok response)
  = Ok (pd_DataFrame (rows_records (skipn 2 (find_all tbl "tr")))).
Proof.
  intros Hs Hf. unfold scrape_vegetable_prices. cbn [bind].
  rewrite (raise_for_status_ok response Hs). cbn [bind].
  rewrite Hf, scrape_rows_records. reflexivity.
Qed.

(** Whatever the scraper returns is the frame of the records of some rows. *)
Lemma scrape_returns_records (get : result Response) (df : DataFrame) :
  scrape_vegetable_prices get = Ok df ->
  exists rows, df = pd_DataFrame (rows_records rows).
Proof.
  destruct get as [response|e].
  - destruct (Z_le_dec 400 (status_code response)) as [H1|H1];
      [destruct (Z_lt_dec (status_code response) 600) as [H2|H2]|].
    + rewrite scrape_http_error by lia. intros [= <-]. now exists [].
    + destruct (find (content response) "table" TABLE_CLASS) as [tbl|] eqn:Hf.
      * rewrite (scrape_table response tbl) by (unfold status_ok; lia || exact Hf).
        intros [= <-]. eauto.
      * rewrite scrape_no_table by (unfold status_ok; lia || exact Hf).
        intros [= <-]. now exists [].
    + destruct (find (content response) "table" TABLE_CLASS) as [tbl|] eqn:Hf.
      * rewrite (scrape_table response tbl) by (unfold status_ok; lia || exact Hf).
        intros [= <-]. eauto.
      * rewrite scrape_no_table by (unfold status_ok; lia || exact Hf).
        intros [= <-]. now exists [].
  - destruct e; cbn; try discriminate. intros [= <-]. now exists [].
Qed.

Lemma rows_records_In (rows : list node) (r : Row) :
  In r (rows_records rows) -> exists row, In row rows /\ row_record row = Some r.
Proof.
  unfold rows_records. rewrite in_flat_map. intros (row & Hin & Hr).
  exists row. split; [exact Hin|].
  destruct (row_record row) as [r'|]; [|destruct Hr].
  destruct Hr as [->|[]]. reflexivity.
Qed.

Lemma row_record_price (row : node) (r : Row) :
  row_record row = Some r -> parse_price (Price_Range r) = Ok (Some (Min_Price r)).
Proof.
  unfold row_record.
  destruct (find_all row "td") as [|c0 [|c1 [|c2 rest]]]; try discriminate.
  destruct (parse_price (strip (text c2))) as [[p|]|] eqn:Hp; try discriminate.
  intros [= <-]. exact Hp.
Qed.

(** The number of rows that give a record. *)
Lemma rows_records_length (rows : list node) :
  List.length (rows_records rows)
  = List.length (filter (fun row => match row_record row with
                                    | Some _ => true
                                    | None => false
                                    end) rows).
Proof.
  induction rows as [|row rows IH]; [reflexivity|].
  cbn [rows_records flat_map filter]. fold (rows_records rows).
  destruct (row_record row); cbn [List.length app]; rewrite IH; reflexivity.
Qed.

End Scraper.

(** C7: in the table found, the scraper skips the first two rows, and each
    later row gives a record exactly when it has at least three cells and the
    trimmed text of the third parses as a price; the record holds the trimmed
    text of the second cell, that of the third, and the parsed price; other
    rows are skipped.  The records come in the order of the rows, and there
    are as many as rows giving one: three parseable rows and a malformed one
    yield exactly three records. *)
Theorem scrape_table_rows (response : Response) (tbl : node) :
  status_ok response ->
  find (content response) "table" TABLE_CLASS = Some tbl ->
  let rows := skipn 2 (find_all tbl "tr") in
  let parseable row :=
    match find_all row "td" with
    | _ :: _ :: c2 :: _ =>
        match parse_price (strip (text c2)) with
        | Ok (Some _) => true
        | _ => false
        end
    | _ => false
    end in
  scrape_vegetable_prices (Ok response) = Ok (pd_DataFrame (rows_records rows))
  /\ List.length (rows_records rows) = List.length (filter parseable rows)
  /\ (forall r, In r (rows_records rows) ->
        exists row c0 c1 c2 rest,
          In row rows
          /\ find_all row "td" = c0 :: c1 :: c2 :: rest
          /\ parse_price (strip (text c2)) = Ok (Some (Min_Price r))
          /\ Vegetable r = strip (text c1)
          /\ Price_Range r = strip (text c2))
  /\ (forall row c0 c1 c2 rest p,
        In row rows ->
        find_all row "td" = c0 :: c1 :: c2 :: rest ->
        parse_price (strip (text c2)) = Ok (Some p) ->
        In {| Vegetable := strip (text c1);
              Price_Range := strip (text c2);
              Min_Price := p |} (rows_records rows)).
Proof.
  intros Hs Hf rows parseable. split; [apply scrape_table; assumption|].
  split; [|split].
  - rewrite rows_records_length. f_equal. apply filter_ext. intros row.
    unfold row_record, parseable.
    destruct (find_all row "td") as [|c0 [|c1 [|c2 rest]]]; try reflexivity.
    destruct (parse_price (strip (text c2))) as [[p|]|]; reflexivity.
  - intros r Hr. apply rows_records_In in Hr as (row & Hin & Hrec).
    unfold row_record in Hrec.
    destruct (find_all row "td") as [|c0 [|c1 [|c2 rest]]] eqn:Htd;
      try discriminate.
    destruct (parse_price (strip (text c2))) as [[p|]|] eqn:Hp; try discriminate.
    injection Hrec as <-. exists row, c0, c1, c2, rest. cbn. auto.
  - intros row c0 c1 c2 rest p Hin Htd Hp.
    unfold rows_records. apply in_flat_map. exists row. split; [exact Hin|].
    unfold row_record. rewrite Htd, Hp. left. reflexivity.
Qed.

Lemma scrape_table_rows_witness :
  scrape_vegetable_prices (Ok (mkResponse 200 Fixture.four_rows))
  = Ok (pd_DataFrame [Fixture.tomato; Fixture.onion; Fixture.carrot]).
Proof.
  destruct (scrape_table_rows
              (mkResponse 200 Fixture.four_rows)
              (Fixture.gold_rates
                 [Fixture.title_row; Fixture.header_row;
                  Fixture.price_row "1" " Tomato " "₹40-50 per kg";
                  Fixture.price_row "2" "Onion" "₹45 per kg";
                  Fixture.price_row "3" "Okra" "not available";
                  Fixture.price_row "4" "Carrot" "₹30-20 per kg"]))
    as [Hrun _].
  - unfold status_ok. cbn. lia.
  - reflexivity.
  - rewrite Hrun. vm_compute. reflexivity.
Defined.

(** C6, as stated, fails for a status that is not a success and not an
    error status either: [raise_for_status] raises for 4xx and 5xx only, so
    that a response with status 300 (or 600) is scraped like a success, and
    its table gives records. *)
Lemma scrape_empty_cases_counterexample :
  ~ (200 <= 300 < 300)
  /\ scrape_vegetable_prices (Ok (mkResponse 300 Fixture.four_rows))
     = Ok (pd_DataFrame [Fixture.tomato; Fixture.onion; Fixture.carrot])
  /\ scrape_vegetable_prices (Ok (mkResponse 600 Fixture.four_rows))
     = Ok (pd_DataFrame [Fixture.tomato; Fixture.onion; Fixture.carrot])
  /\ pd_DataFrame [Fixture.tomato; Fixture.onion; Fixture.carrot]
     <> pd_DataFrame [].
Proof.
  split; [lia|]. split; [vm_compute; reflexivity|].
  split; [vm_compute; reflexivity | discriminate].
Qed.

(** C6, amended: the scraper returns the empty Dataset, and does not raise,
    when [requests.get] raises a request exception, when the status is an
    error status (4xx or 5xx, for which [raise_for_status] raises; every
    other status is handled like a success), when the document has no table
    of the expected class, and when no row of the table has a price that
    parses. *)
Theorem scrape_empty_cases :
  (forall e : request_exception,
      scrape_vegetable_prices (Raise (RequestException e))
      = Ok (pd_DataFrame []))
  /\ (forall response : Response,
         400 <= status_code response < 600 ->
         scrape_vegetable_prices (Ok response) = Ok (pd_DataFrame []))
  /\ (forall response : Response,
         status_ok response ->
         find (content response) "table" TABLE_CLASS = None ->
         scrape_vegetable_prices (Ok response) = Ok (pd_DataFrame []))
  /\ (forall (response : Response) (tbl : node),
         status_ok response ->
         find (content response) "table" TABLE_CLASS = Some tbl ->
         (forall row c0 c1 c2 rest,
             In row (skipn 2 (find_all tbl "tr")) ->
             find_all row "td" = c0 :: c1 :: c2 :: rest ->
             parse_price (strip (text c2)) = Ok None) ->
         scrape_vegetable_prices (Ok response) = Ok (pd_DataFrame [])).
Proof.
  split; [exact scrape_request_exception|].
  split; [exact scrape_http_error|].
  split; [exact scrape_no_table|].
  intros response tbl Hs Hf Hrows.
  rewrite (scrape_table response tbl Hs Hf). do 2 f_equal.
  induction (skipn 2 (find_all tbl "tr")) as [|row rows IH]; [reflexivity|].
  cbn [rows_records flat_map]. fold (rows_records rows).
  rewrite IH by (intros; eapply Hrows; [right|]; eassumption).
  unfold row_record.
  destruct (find_all row "td") as [|c0 [|c1 [|c2 rest]]] eqn:Htd;
    try reflexivity.
  rewrite (Hrows row c0 c1 c2 rest (or_introl eq_refl) Htd). reflexivity.
Qed.

Lemma scrape_empty_cases_witness :
  scrape_vegetable_prices (Raise (RequestException ConnectionError))
  = Ok (pd_DataFrame [])
  /\ scrape_vegetable_prices (Ok (mkResponse 404 Fixture.four_rows))
     = Ok (pd_DataFrame [])
  /\ scrape_vegetable_prices (Ok (mkResponse 200 Fixture.no_table))
     = Ok (pd_DataFrame [])
  /\ scrape_vegetable_prices (Ok (mkResponse 200 Fixture.no_price))
     = Ok (pd_DataFrame []).
Proof.
  destruct scrape_empty_cases as (H1 & H2 & H3 & H4).
  split; [apply H1|]. split; [|split].
  - apply H2. cbn. lia.
  - apply H3; [unfold status_ok; cbn; lia | reflexivity].
  - apply (H4 (mkResponse 200 Fixture.no_price)
              (Fixture.gold_rates
                 [Fixture.title_row; Fixture.header_row;
                  Fixture.price_row "1" "Tomato" "-";
                  Fixture.price_row "2" "Onion" "sold out";
                  Fixture.tr [Fixture.td "3"; Fixture.td "Okra"]])).
    + unfold status_ok. cbn. lia.
    + reflexivity.
    + intros row c0 c1 c2 rest Hin Htd.
      destruct Hin as [<-|[<-|[<-|[]]]];
        vm_compute in Htd; try discriminate Htd;
        inversion Htd; subst; vm_compute; reflexivity.
Defined.

(** C4, as stated, fails for a range written in descending order: the record
    of "₹30-20 per kg" is stored with 30.0, while the lowest bound written in
    that range is 20.0. *)
Lemma min_price_lowest_bound_counterexample :
  scrape_vegetable_prices (Ok (mkResponse 200 Fixture.four_rows))
  = Ok (pd_DataFrame [Fixture.tomato; Fixture.onion; Fixture.carrot])
  /\ Min_Price Fixture.carrot = Prim2SF 30%float
  /\ lowest_bound (Price_Range Fixture.carrot) = Prim2SF 20%float
  /\ Min_Price Fixture.carrot <> lowest_bound (Price_Range Fixture.carrot).
Proof.
  repeat split; try (vm_compute; reflexivity). vm_compute. discriminate.
Qed.

(** C4, amended: the price of every record of the Dataset is the float of
    the first bound of its price range, the text before the first hyphen once
    the glyph and the unit are removed and the text trimmed; a row whose
    first bound does not convert is dropped, so that no record is stored
    without a price. *)
Theorem min_price_is_first_bound :
  (forall (get : result Response) (df : DataFrame) (r : Row),
      scrape_vegetable_prices get = Ok df ->
      In r (records df) ->
      from_str (candidate (Price_Range r)) = Ok (Min_Price r))
  /\ (forall (data : list Row) (row c0 c1 c2 : node) (rest : list node) (e : exc),
         find_all row "td" = c0 :: c1 :: c2 :: rest ->
         from_str (candidate (strip (text c2))) = Raise e ->
         scrape_row data row = Ok data).
Proof.
  split.
  - intros get df r Hrun Hin.
    destruct (scrape_returns_records get df Hrun) as [rows ->].
    apply rows_records_In in Hin as (row & _ & Hrec).
    apply row_record_price in Hrec. rewrite parse_price_candidate in Hrec.
    destruct (from_str (candidate (Price_Range r))); congruence.
  - intros data row c0 c1 c2 rest e Htd Hbad.
    rewrite scrape_row_record. unfold row_record.
    rewrite Htd, parse_price_candidate, Hbad, app_nil_r. reflexivity.
Qed.

Lemma min_price_is_first_bound_witness :
  from_str (candidate (Price_Range Fixture.carrot)) = Ok (Prim2SF 30%float)
  /\ scrape_row [Fixture.tomato] (Fixture.price_row "3" "Okra" "not available")
     = Ok [Fixture.tomato].
Proof.
  destruct min_price_is_first_bound as [Hkept Hdropped]. split.
  - apply (Hkept (Ok (mkResponse 200 Fixture.four_rows))
                 (pd_DataFrame [Fixture.tomato; Fixture.onion; Fixture.carrot])
                 Fixture.carrot).
    + vm_compute. reflexivity.
    + cbn. auto.
  - apply (Hdropped [Fixture.tomato]
                    (Fixture.price_row "3" "Okra" "not available")
                    (Fixture.td "3") (Fixture.td "Okra")
                    (Fixture.td "not available") [] ValueError).
    + reflexivity.
    + vm_compute. reflexivity.
Defined.

(** C1: on every empty Dataset the scraper can return, building the dashboard
    raises [KeyError]: the frame has no [Min Price] column to take the bounds
    of the filter from, and the callback that draws the charts would raise in
    the same way. *)
Theorem create_dashboard_empty_raises
    (get : result Response) (df : DataFrame) (price_range : list float) :
  scrape_vegetable_prices get = Ok df ->
  records df = [] ->
  create_dashboard get = Raise (KeyError "Min Price")
  /\ update_charts df price_range = Raise (KeyError "Min Price").
Proof.
  intros Hrun Hempty.
  destruct (scrape_returns_records get df Hrun) as [rows ->].
  cbn [records pd_DataFrame] in Hempty.
  unfold create_dashboard. rewrite Hrun, Hempty. split; reflexivity.
Qed.

Lemma create_dashboard_empty_raises_witness :
  create_dashboard (Raise (RequestException ConnectionError))
  = Raise (KeyError "Min Price")
  /\ create_dashboard (Ok (mkResponse 200 Fixture.no_table))
     = Raise (KeyError "Min Price")
  /\ update_charts (pd_DataFrame []) [of_Z 0; of_Z 100]
     = Raise (KeyError "Min Price").
Proof.
  split; [|split].
  - apply (create_dashboard_empty_raises
             (Raise (RequestException ConnectionError)) (pd_DataFrame []) []);
      reflexivity.
  - apply (create_dashboard_empty_raises
             (Ok (mkResponse 200 Fixture.no_table)) (pd_DataFrame []) []);
      reflexivity.
  - apply (create_dashboard_empty_raises
             (Raise (RequestException ConnectionError)) (pd_DataFrame [])
             [of_Z 0; of_Z 100]);
      reflexivity.
Defined.

(** * Further properties *)

(** ** [parse_price]: what the result depends on *)

Section ParsePriceMore.

Lemma parse_price_cleaned (s s' : str) :
  cleaned s = cleaned s' -> parse_price s = parse_price s'.
Proof.
  intros H. rewrite !parse_price_candidate. unfold candidate. rewrite H.
  reflexivity.
Qed.

(** Replacing a single code point by nothing deletes its occurrences. *)
Lemma replace_from_single (c : N) (s : str) :
  replace_from [c] [] 0 s = filter (fun x => negb (c =? x)%N) s.
Proof.
  induction s as [|x s IH]; [reflexivity|].
  cbn [replace_from startswith filter List.length Nat.sub app].
  rewrite andb_true_r. destruct (c =? x)%N; cbn [negb]; rewrite IH; reflexivity.
Qed.

Lemma replace_rupee_filter (s : str) :
  replace s RUPEE [] = filter (fun x => negb (8377 =? x)%N) s.
Proof. apply replace_from_single. Qed.

(** No occurrence of the unit suffix can start in a string and end in a copy
    of the suffix appended to it: the suffix only has a [p] at its start. *)
Lemma startswith_per_kg_app (s : str) :
  startswith PER_KG (s ++ PER_KG) = true ->
  s <> [] ->
  startswith PER_KG s = true.
Proof.
  destruct s as [|c0 [|c1 [|c2 [|c3 [|c4 [|c5 t]]]]]]; intros H Hne;
    try congruence; try exact H;
    cbn in H; rewrite ?andb_false_r in H; discriminate H.
Qed.

Lemma startswith_length (p s : str) :
  startswith p s = true -> (List.length p <= List.length s)%nat.
Proof.
  revert s. induction p as [|a p IH]; intros [|b s] H; cbn in *;
    try lia; try discriminate.
  apply andb_true_iff in H as [_ H]. apply IH in H. lia.
Qed.

Lemma startswith_app (p s t : str) :
  startswith p s = true -> startswith p (s ++ t) = true.
Proof.
  revert s. induction p as [|a p IH]; intros [|b s] H; cbn in *;
    try reflexivity; try discriminate.
  apply andb_true_iff in H as [H1 H2]. rewrite H1, (IH _ H2). reflexivity.
Qed.

Lemma replace_from_per_kg_app (s : str) (k : nat) :
  (k <= List.length s)%nat ->
  replace_from PER_KG [] k (s ++ PER_KG) = replace_from PER_KG [] k s.
Proof.
  revert k. induction s as [|c s IH]; intros k Hk.
  - assert (k = 0%nat) as -> by (cbn in Hk; lia). reflexivity.
  - change ((c :: s) ++ PER_KG) with (c :: (s ++ PER_KG)).
    cbn [replace_from]. destruct k as [|k].
    + destruct (startswith PER_KG (c :: s)) eqn:Hs.
      * change (c :: (s ++ PER_KG)) with ((c :: s) ++ PER_KG).
        rewrite (startswith_app _ _ PER_KG Hs).
        apply startswith_length in Hs. cbn in Hs.
        rewrite IH by (cbn; lia). reflexivity.
      * destruct (startswith PER_KG (c :: (s ++ PER_KG))) eqn:Hs'.
        -- apply (startswith_per_kg_app (c :: s)) in Hs'; congruence.
        -- rewrite IH by lia. reflexivity.
    + apply IH. cbn in Hk. lia.
Qed.

Lemma filter_rupee_app_per_kg (s : str) :
  replace (s ++ PER_KG) RUPEE [] = replace s RUPEE [] ++ PER_KG.
Proof. rewrite !replace_rupee_filter, filter_app. reflexivity. Qed.

Lemma cleaned_app_per_kg (s : str) : cleaned (s ++ PER_KG) = cleaned s.
Proof.
  unfold cleaned. rewrite filter_rupee_app_per_kg.
  unfold replace at 1 3. unfold PER_KG at 1 3. fold PER_KG.
  rewrite replace_from_per_kg_app by lia. reflexivity.
Qed.

End ParsePriceMore.

(** X1: the currency glyph is ignored wherever it stands: a string and the
    string with a glyph inserted anywhere parse alike. *)
Theorem parse_price_ignores_glyph (a b : str) :
  parse_price (a ++ RUPEE ++ b) = parse_price (a ++ b).
Proof.
  apply parse_price_cleaned. unfold cleaned. f_equal. f_equal.
  rewrite !replace_rupee_filter, !filter_app. reflexivity.
Qed.

(** X2: a unit suffix ["per kg"] appended to a string does not change what
    the string parses to. *)
Theorem parse_price_ignores_unit_suffix (s : str) :
  parse_price (s ++ PER_KG) = parse_price s.
Proof. apply parse_price_cleaned, cleaned_app_per_kg. Qed.

(** ** [parse_price]: white space around the text *)

Section ParsePriceSpace.

Lemma space_not_rupee_p_g (c : N) :
  isspace c = true -> c <> 8377%N /\ c <> 112%N /\ c <> 103%N.
Proof. intros H. repeat split; intros ->; discriminate H. Qed.

Lemma startswith_per_kg_snoc (s : str) (c : N) :
  c <> 103%N ->
  startswith PER_KG (s ++ [c]) = startswith PER_KG s.
Proof.
  intros Hc.
  destruct s as [|c0 [|c1 [|c2 [|c3 [|c4 [|c5 t]]]]]];
    unfold PER_KG; cbn [startswith app];
    rewrite ?andb_false_r, ?andb_true_r; try reflexivity.
  destruct (N.eqb_spec 103 c) as [E|_]; [congruence|].
  rewrite ?andb_false_r. reflexivity.
Qed.

Lemma replace_from_per_kg_snoc (s : str) (c : N) (k : nat) :
  c <> 103%N ->
  (k <= List.length s)%nat ->
  replace_from PER_KG [] k (s ++ [c]) = replace_from PER_KG [] k s ++ [c].
Proof.
  intros Hc. revert k. induction s as [|x s IH]; intros k Hk.
  - assert (k = 0%nat) as -> by (cbn in Hk; lia).
    unfold PER_KG. cbn [app replace_from startswith].
    rewrite andb_false_r. reflexivity.
  - change ((x :: s) ++ [c]) with (x :: (s ++ [c])).
    cbn [replace_from]. destruct k as [|k].
    + change (x :: (s ++ [c])) with ((x :: s) ++ [c]).
      rewrite (startswith_per_kg_snoc (x :: s) c Hc).
      destruct (startswith PER_KG (x :: s)) eqn:Hs.
      * apply startswith_length in Hs. cbn in Hs.
        rewrite IH by (cbn; lia). reflexivity.
      * rewrite IH by lia. reflexivity.
    + apply IH. cbn in Hk. lia.
Qed.

Lemma rstrip_snoc_space (s : str) (c : N) :
  isspace c = true -> rstrip (s ++ [c]) = rstrip s.
Proof.
  intros Hc. induction s as [|x s IH].
  - cbn. rewrite Hc. reflexivity.
  - change ((x :: s) ++ [c]) with (x :: (s ++ [c])).
    cbn [rstrip]. rewrite IH. reflexivity.
Qed.

Lemma strip_snoc_space (s : str) (c : N) :
  isspace c = true -> strip (s ++ [c]) = strip s.
Proof.
  intros Hc. unfold strip. induction s as [|x s IH].
  - cbn. rewrite Hc. reflexivity.
  - change ((x :: s) ++ [c]) with (x :: (s ++ [c])).
    cbn [lstrip]. destruct (isspace x); [exact IH|].
    change (x :: (s ++ [c])) with ((x :: s) ++ [c]).
    apply rstrip_snoc_space, Hc.
Qed.

Lemma cleaned_cons_space (c : N) (s : str) :
  isspace c = true -> cleaned (c :: s) = cleaned s.
Proof.
  intros Hc. destruct (space_not_rupee_p_g c Hc) as (H1 & H2 & _).
  unfold cleaned, RUPEE, PER_KG.
  rewrite replace_cons by exact H1. rewrite replace_cons by exact H2.
  unfold strip. cbn [lstrip]. rewrite Hc. reflexivity.
Qed.

Lemma cleaned_snoc_space (s : str) (c : N) :
  isspace c = true -> cleaned (s ++ [c]) = cleaned s.
Proof.
  intros Hc. destruct (space_not_rupee_p_g c Hc) as (H1 & _ & H3).
  unfold cleaned. rewrite !replace_rupee_filter, filter_app.
  cbn [filter]. destruct (N.eqb_spec 8377 c) as [E|_]; [congruence|].
  cbn [negb]. unfold replace, PER_KG. fold PER_KG.
  rewrite replace_from_per_kg_snoc by (exact H3 || lia).
  apply strip_snoc_space, Hc.
Qed.

End ParsePriceSpace.

(** X3: white space before or after the text does not change what it parses
    to (any of the code points [str.strip] removes). *)
Theorem parse_price_ignores_outer_space (before s after : str) :
  Forall (fun c => isspace c = true) before ->
  Forall (fun c => isspace c = true) after ->
  parse_price (before ++ s ++ after) = parse_price s.
Proof.
  intros Hb Ha. apply parse_price_cleaned.
  induction Hb as [|c before Hc _ IH].
  - cbn [app]. clear - Ha. induction after as [|c after IH] using rev_ind.
    + rewrite app_nil_r. reflexivity.
    + apply Forall_app in Ha as [Ha Hc]. rewrite app_assoc.
      rewrite cleaned_snoc_space by exact (Forall_inv Hc). exact (IH Ha).
  - change ((c :: before) ++ s ++ after) with (c :: (before ++ s ++ after)).
    rewrite cleaned_cons_space by exact Hc. exact IH.
Qed.

Lemma parse_price_ignores_outer_space_witness :
  parse_price (u "  " ++ u "₹40-50 per kg" ++ [160%N; 10%N])
  = Ok (Some (Prim2SF 40%float)).
Proof.
  rewrite (parse_price_ignores_outer_space
             (u "  ") (u "₹40-50 per kg") [160%N; 10%N]).
  - vm_compute. reflexivity.
  - repeat constructor.
  - repeat constructor.
Defined.

(** ** [parse_price]: the sign of the result *)

Section ParsePriceSign.

Lemma split_head_no_hyphen (s : str) :
  Forall (fun c => c <> 45%N) (hd [] (split_from HYPHEN 0 s)).
Proof.
  induction s as [|c s IH]; [constructor|].
  cbn [split_from startswith HYPHEN]. rewrite andb_true_r.
  destruct (N.eqb_spec 45 c) as [E|Hne]; [constructor|].
  fold HYPHEN. destruct (split_from HYPHEN 0 s) as [|p ps]; cbn [hd] in *.
  - repeat constructor. congruence.
  - constructor; [congruence | exact IH].
Qed.

Lemma transform_no_hyphen (s : str) :
  Forall (fun c => c <> 45%N) s -> Forall (fun c => c <> 45%N) (transform s).
Proof.
  induction 1 as [|c s Hc _ IH]; [constructor|].
  cbn [transform]. destruct (c <? 127)%N; [constructor; assumption|].
  destruct (isspace c); [constructor; [discriminate | assumption]|].
  destruct (todecimal c) as [d|].
  - constructor; [lia | assumption].
  - repeat constructor. discriminate.
Qed.

Lemma drop_underscores_Forall (P : N -> Prop) (s r : str) (prev : N) :
  Forall P s -> drop_underscores prev s = Some r -> Forall P r.
Proof.
  intros Hs. revert prev r. induction Hs as [|c s Hc _ IH]; intros prev r.
  - cbn. destruct (prev =? 95)%N; intros [= <-]; constructor.
  - cbn [drop_underscores]. destruct (c =? 95)%N.
    + destruct (isdigit prev); [apply IH | discriminate].
    + destruct ((prev =? 95)%N && negb (isdigit c)); [discriminate|].
      destruct (drop_underscores c s) as [r'|] eqn:Hr; [|discriminate].
      intros [= <-]. constructor; [exact Hc | eapply IH; exact Hr].
Qed.

Lemma c_lstrip_Forall (P : N -> Prop) (s : str) :
  Forall P s -> Forall P (c_lstrip s).
Proof.
  induction 1 as [|c s Hc Hs IH]; [constructor|].
  cbn [c_lstrip]. destruct (c_isspace c); [exact IH | constructor; assumption].
Qed.

Lemma c_rstrip_Forall (P : N -> Prop) (s : str) :
  Forall P s -> Forall P (c_rstrip s).
Proof.
  induction 1 as [|c s Hc Hs IH]; [constructor|].
  cbn [c_rstrip]. destruct (c_rstrip s) as [|x t].
  - destruct (c_isspace c); repeat constructor. exact Hc.
  - constructor; assumption.
Qed.

Lemma of_decimal_not_negative (m : N) (e : Z) :
  is_negative (of_decimal false m e) = false.
Proof.
  unfold of_decimal. destruct m as [|p]; [reflexivity|].
  destruct (0 <=? e).
  - unfold binary_round.
    destruct (shl_align _ _ _) as [mz ez]. unfold binary_round_aux.
    destruct (shr_fexp _ _ _ _ _) as [mrs e']. destruct (shr_fexp _ _ _ _ _) as [mrs' e''].
    destruct (shr_m mrs'); try reflexivity.
    destruct (e'' <=? _); reflexivity.
  - destruct (SFdiv_core_binary _ _ _ _ _ _) as [[q e'] l].
    unfold binary_round_aux.
    destruct (shr_fexp _ _ _ _ _) as [mrs e1]. destruct (shr_fexp _ _ _ _ _) as [mrs' e2].
    destruct (shr_m mrs'); try reflexivity.
    destruct (e2 <=? _); reflexivity.
Qed.

Lemma string_to_double_not_negative (s : str) (x : float) :
  Forall (fun c => c <> 45%N) s ->
  string_to_double s = Some x -> is_negative x = false.
Proof.
  intros Hs. unfold string_to_double.
  assert (Hsign : exists s1, take_sign s = (false, s1)).
  { destruct Hs as [|c s Hc _]; cbn; [eauto|].
    destruct (N.eqb_spec c 45); [congruence|]. destruct (c =? 43)%N; eauto. }
  destruct Hsign as [s1 ->].
  destruct (parse_decimal false s1) as [[y r]|] eqn:Hd.
  - unfold parse_decimal in Hd.
    destruct (span_digits s1) as [ip r1].
    destruct (match r1 with [] => _ | _ :: _ => _ end) as [fp r2].
    destruct (ip ++ fp); [discriminate|].
    destruct (parse_exponent r2) as [e r3]. injection Hd as <- <-.
    destruct r3; [|discriminate]. intros [= <-].
    apply of_decimal_not_negative.
  - unfold parse_inf_or_nan. cbv zeta.
    destruct (startswith (u "infinity") _);
      [destruct (skipn 8 s1); [intros [= <-]; reflexivity | discriminate]|].
    destruct (startswith (u "inf") _);
      [destruct (skipn 3 s1); [intros [= <-]; reflexivity | discriminate]|].
    destruct (startswith (u "nan") _);
      [destruct (skipn 3 s1); [intros [= <-]; reflexivity | discriminate]|].
    discriminate.
Qed.

Lemma from_str_not_negative (s : str) (x : float) :
  Forall (fun c => c <> 45%N) s ->
  from_str s = Ok x -> is_negative x = false.
Proof.
  intros Hs. unfold from_str.
  destruct (drop_underscores 0 (transform s)) as [s1|] eqn:Hu; [|discriminate].
  destruct (string_to_double _) as [y|] eqn:Hd; [|discriminate].
  intros [= <-]. eapply string_to_double_not_negative; [|exact Hd].
  apply c_rstrip_Forall, c_lstrip_Forall.
  eapply drop_underscores_Forall; [|exact Hu].
  apply transform_no_hyphen, Hs.
Qed.

Lemma parse_price_not_negative (s : str) (x : float) :
  parse_price s = Ok (Some x) -> is_negative x = false.
Proof.
  rewrite parse_price_candidate.
  destruct (from_str (candidate s)) as [y|] eqn:Hy; [|discriminate].
  intros [= <-]. eapply from_str_not_negative; [|exact Hy].
  apply split_head_no_hyphen.
Qed.

End ParsePriceSign.

(** X4: [parse_price] never returns a float whose sign bit is set: no
    negative number, no [-0.0], no negative infinity.  A hyphen always ends
    the text that is converted, so that no sign (and no negative exponent)
    reaches [float]. *)
Theorem parse_price_never_negative (s : str) (x : float) :
  parse_price s = Ok (Some x) -> is_negative x = false.
Proof. apply parse_price_not_negative. Qed.

Lemma parse_price_never_negative_witness :
  is_negative (Prim2SF 40%float) = false.
Proof.
  apply (parse_price_never_negative (u "₹40-50 per kg")).
  vm_compute. reflexivity.
Defined.

(** ** The scraper: what it returns and what it lets through *)

(** X5: once the body of the response is parsed, nothing in the scraper
    raises: it returns a frame for every response with a parsed document,
    whatever the status and the document, and whenever [requests.get] raises
    a request exception; any other exception raised by [requests.get] passes
    through unchanged. *)
Theorem scrape_returns_or_passes_through :
  (forall response : Response,
      exists rows, scrape_vegetable_prices (Ok response)
                   = Ok (pd_DataFrame (rows_records rows)))
  /\ (forall e : request_exception,
         scrape_vegetable_prices (Raise (RequestException e))
         = Ok (pd_DataFrame []))
  /\ (forall e : exc,
         (forall r, e <> RequestException r) ->
         scrape_vegetable_prices (Raise e) = Raise e).
Proof.
  split; [|split].
  - intros response.
    destruct (Z_le_dec 400 (status_code response)) as [H1|H1];
      [destruct (Z_lt_dec (status_code response) 600) as [H2|H2]|].
    + exists []. apply scrape_http_error. lia.
    + destruct (find (content response) "table" TABLE_CLASS) as [tbl|] eqn:Hf.
      * eexists. apply (scrape_table response tbl); [unfold status_ok; lia | exact Hf].
      * exists []. apply scrape_no_table; [unfold status_ok; lia | exact Hf].
    + destruct (find (content response) "table" TABLE_CLASS) as [tbl|] eqn:Hf.
      * eexists. apply (scrape_table response tbl); [unfold status_ok; lia | exact Hf].
      * exists []. apply scrape_no_table; [unfold status_ok; lia | exact Hf].
  - reflexivity.
  - intros e He. destruct e as [r| | | |]; try reflexivity.
    exfalso. apply (He r). reflexivity.
Qed.

Lemma scrape_returns_or_passes_through_witness :
  scrape_vegetable_prices (Raise (KeyError "x")) = Raise (KeyError "x").
Proof.
  destruct scrape_returns_or_passes_through as (_ & _ & H).
  apply H. intros r. discriminate.
Defined.

Section ScraperMore.

Lemma rows_records_length_le (rows : list node) :
  (List.length (rows_records rows) <= List.length rows)%nat.
Proof.
  rewrite rows_records_length. apply filter_length_le.
Qed.

Lemma scrape_response_cases (response : Response) (df : DataFrame) :
  scrape_vegetable_prices (Ok response) = Ok df ->
  df = pd_DataFrame []
  \/ exists tbl, find (content response) "table" TABLE_CLASS = Some tbl
                 /\ df = pd_DataFrame (rows_records (skipn 2 (find_all tbl "tr"))).
Proof.
  destruct (Z_le_dec 400 (status_code response)) as [H1|H1];
    [destruct (Z_lt_dec (status_code response) 600) as [H2|H2]|].
  - rewrite scrape_http_error by lia. intros [= <-]. now left.
  - destruct (find (content response) "table" TABLE_CLASS) as [tbl|] eqn:Hf.
    + rewrite (scrape_table response tbl) by (unfold status_ok; lia || exact Hf).
      intros [= <-]. right. eauto.
    + rewrite scrape_no_table by (unfold status_ok; lia || exact Hf).
      intros [= <-]. now left.
  - destruct (find (content response) "table" TABLE_CLASS) as [tbl|] eqn:Hf.
    + rewrite (scrape_table response tbl) by (unfold status_ok; lia || exact Hf).
      intros [= <-]. right. eauto.
    + rewrite scrape_no_table by (unfold status_ok; lia || exact Hf).
      intros [= <-]. now left.
Qed.

Lemma lstrip_head (s : str) :
  lstrip s = [] \/ exists c t, lstrip s = c :: t /\ isspace c = false.
Proof.
  induction s as [|c s IH]; [now left|].
  cbn [lstrip]. destruct (isspace c) eqn:Hc; [exact IH|]. right. eauto.
Qed.

Lemma rstrip_idempotent (s : str) : rstrip (rstrip s) = rstrip s.
Proof.
  induction s as [|c s IH]; [reflexivity|].
  cbn [rstrip]. destruct (rstrip s) as [|x t] eqn:Hr.
  - destruct (isspace c) eqn:Hc; [reflexivity|]. cbn. rewrite Hc. reflexivity.
  - cbn [rstrip]. cbn [rstrip] in IH. rewrite IH. reflexivity.
Qed.

Lemma strip_idempotent (s : str) : strip (strip s) = strip s.
Proof.
  unfold strip. destruct (lstrip_head s) as [->|(c & t & -> & Hc)].
  - reflexivity.
  - rewrite (rstrip_cons_nonspace c t Hc). cbn [lstrip]. rewrite Hc.
    rewrite <- (rstrip_cons_nonspace c t Hc). apply rstrip_idempotent.
Qed.

End ScraperMore.

(** X6: the Dataset never has more records than the table has rows after
    the two header rows; a table of at most two rows gives the empty frame. *)
Theorem scrape_record_count (response : Response) (tbl : node) (df : DataFrame) :
  find (content response) "table" TABLE_CLASS = Some tbl ->
  scrape_vegetable_prices (Ok response) = Ok df ->
  (List.length (records df) <= List.length (find_all tbl "tr") - 2)%nat
  /\ ((List.length (find_all tbl "tr") <= 2)%nat -> df = pd_DataFrame []).
Proof.
  intros Hf Hrun.
  assert (Hlen : (List.length (records df)
                  <= List.length (find_all tbl "tr") - 2)%nat).
  { destruct (scrape_response_cases response df Hrun)
      as [->|(tbl' & Hf' & ->)]; [cbn; lia|].
    rewrite Hf in Hf'. injection Hf' as <-. cbn [records pd_DataFrame].
    etransitivity; [apply rows_records_length_le|].
    rewrite length_skipn. lia. }
  split; [exact Hlen|]. intros Hshort.
  destruct (scrape_response_cases response df Hrun)
    as [->|(tbl' & Hf' & ->)]; [reflexivity|].
  cbn [records pd_DataFrame] in Hlen.
  destruct (rows_records _); [reflexivity | cbn in Hlen; lia].
Qed.

Lemma scrape_record_count_witness :
  (List.length
     (records (pd_DataFrame [Fixture.tomato; Fixture.onion; Fixture.carrot]))
   <= 6 - 2)%nat.
Proof.
  destruct (scrape_record_count
              (mkResponse 200 Fixture.four_rows)
              (Fixture.gold_rates
                 [Fixture.title_row; Fixture.header_row;
                  Fixture.price_row "1" " Tomato " "₹40-50 per kg";
                  Fixture.price_row "2" "Onion" "₹45 per kg";
                  Fixture.price_row "3" "Okra" "not available";
                  Fixture.price_row "4" "Carrot" "₹30-20 per kg"])
              (pd_DataFrame [Fixture.tomato; Fixture.onion; Fixture.carrot]))
    as [H _].
  - reflexivity.
  - vm_compute. reflexivity.
  - exact H.
Defined.

(** X7: the name and the price range of every record of the Dataset are
    stored trimmed (stripping them again changes nothing), and parsing the
    stored price range again gives the stored price. *)
Theorem scrape_records_trimmed
    (get : result Response) (df : DataFrame) (r : Row) :
  scrape_vegetable_prices get = Ok df ->
  In r (records df) ->
  strip (Vegetable r) = Vegetable r
  /\ strip (Price_Range r) = Price_Range r
  /\ parse_price (Price_Range r) = Ok (Some (Min_Price r)).
Proof.
  intros Hrun Hin.
  destruct (scrape_returns_records get df Hrun) as [rows ->].
  apply rows_records_In in Hin as (row & _ & Hrec).
  split; [|split]; [| |exact (row_record_price row r Hrec)];
    unfold row_record in Hrec;
    destruct (find_all row "td") as [|c0 [|c1 [|c2 rest]]]; try discriminate;
    destruct (parse_price (strip (text c2))) as [[p|]|]; try discriminate;
    injection Hrec as <-; cbn; apply strip_idempotent.
Qed.

Lemma scrape_records_trimmed_witness :
  strip (Vegetable Fixture.tomato) = Vegetable Fixture.tomato
  /\ strip (Price_Range Fixture.tomato) = Price_Range Fixture.tomato
  /\ parse_price (Price_Range Fixture.tomato)
     = Ok (Some (Min_Price Fixture.tomato)).
Proof.
  apply (scrape_records_trimmed
           (Ok (mkResponse 200 Fixture.four_rows))
           (pd_DataFrame [Fixture.tomato; Fixture.onion; Fixture.carrot])).
  - vm_compute. reflexivity.
  - cbn. auto.
Defined.

(** ** The callback: charts, ranges *)

Section CallbackMore.

Lemma select_incl (rows : list Row) (mask : list bool) :
  incl (select rows mask) rows.
Proof.
  revert mask. induction rows as [|r rows IH]; intros [|b mask] x Hx;
    cbn in Hx; try contradiction.
  destruct b.
  - destruct Hx as [<-|Hx]; [now left | right; eapply IH; exact Hx].
  - right. eapply IH; exact Hx.
Qed.

(** A record within a range witnesses that the range is not inverted. *)
Lemma in_range_le (lo hi p : float) :
  ge p lo && le p hi = true -> le lo hi = true.
Proof.
  intros H. apply andb_true_iff in H as [H1 H2].
  eapply le_trans; [exact H1 | exact H2].
Qed.

Lemma filter_none (p : Row -> bool) (rows : list Row) :
  (forall r, In r rows -> p r = false) -> filter p rows = [].
Proof.
  induction rows as [|r rows IH]; intros H; [reflexivity|].
  cbn [filter]. rewrite (H r (or_introl eq_refl)).
  apply IH. intros x Hx. apply H. now right.
Qed.

End CallbackMore.

(** X8: whenever the callback returns, the two charts and the table show
    the same records: the bars are the names and prices of the records
    returned for the table, coloured by price, the histogram takes their
    prices with 20 bins, and every record returned is a record of the
    Dataset. *)
Theorem update_charts_outputs_agree
    (df : DataFrame) (price_range : list float)
    (bar_fig : BarFigure) (hist_fig : Histogram) (shown : list Row) :
  update_charts df price_range = Ok (bar_fig, hist_fig, shown) ->
  bar_x bar_fig = List.map Vegetable shown
  /\ bar_y bar_fig = List.map Min_Price shown
  /\ bar_color bar_fig = List.map Min_Price shown
  /\ hist_x hist_fig = List.map Min_Price shown
  /\ hist_nbins hist_fig = 20
  /\ incl shown (records df).
Proof.
  unfold update_charts, px_bar, px_histogram, getitem_Min_Price,
    getitem_Vegetable, has_column, to_dict_records, getitem_mask.
  cbn [columns records].
  destruct (existsb (String.eqb "Min Price") (columns df)); [|discriminate].
  cbn [bind].
  destruct (getitem price_range 0) as [low|]; [|discriminate]. cbn [bind].
  destruct (getitem price_range 1) as [high|]; [|discriminate]. cbn [bind].
  destruct (existsb (String.eqb "Vegetable") (columns df)); [|discriminate].
  cbn [bind]. intros [= <- <- <-]. cbn.
  repeat split; try reflexivity. apply select_incl.
Qed.

Lemma update_charts_outputs_agree_witness :
  exists bar_fig hist_fig,
    update_charts (pd_DataFrame [Fixture.tomato; Fixture.onion])
      [of_Z 42; of_Z 50] = Ok (bar_fig, hist_fig, [Fixture.onion])
    /\ bar_x bar_fig = [u "Onion"]
    /\ hist_x hist_fig = [Prim2SF 45%float].
Proof.
  do 2 eexists. split; [vm_compute; reflexivity|].
  destruct (update_charts_outputs_agree
              (pd_DataFrame [Fixture.tomato; Fixture.onion])
              [of_Z 42; of_Z 50]
              (mkBar [u "Onion"] [Prim2SF 45%float] [Prim2SF 45%float])
              (mkHistogram [Prim2SF 45%float] 20) [Fixture.onion])
    as (Hx & _ & _ & Hh & _).
  - vm_compute. reflexivity.
  - split; [exact Hx | exact Hh].
Defined.

(** X9: with a range whose lower end is not below or equal to its upper end
    (an inverted range, or a NaN at either end) the callback returns no
    record and empty charts, on every non-empty Dataset. *)
Theorem update_charts_inverted_range (D : list Row) (lo hi : float) :
  D <> [] ->
  le lo hi = false ->
  update_charts (pd_DataFrame D) [lo; hi]
  = Ok ({| bar_x := []; bar_y := []; bar_color := [] |},
        {| hist_x := []; hist_nbins := 20 |}, []).
Proof.
  intros HD Hinv. rewrite (update_charts_nonempty D lo hi HD).
  rewrite filter_none; [reflexivity|].
  intros r _. destruct (ge (Min_Price r) lo && le (Min_Price r) hi) eqn:E;
    [|reflexivity].
  apply in_range_le in E. congruence.
Qed.

Lemma update_charts_inverted_range_witness :
  update_charts (pd_DataFrame [Fixture.tomato; Fixture.onion])
    [of_Z 50; of_Z 40]
  = Ok ({| bar_x := []; bar_y := []; bar_color := [] |},
        {| hist_x := []; hist_nbins := 20 |}, [])
  /\ update_charts (pd_DataFrame [Fixture.tomato; Fixture.onion])
       [nan; of_Z 40]
     = Ok ({| bar_x := []; bar_y := []; bar_color := [] |},
           {| hist_x := []; hist_nbins := 20 |}, []).
Proof.
  split.
  - apply (update_charts_inverted_range
             [Fixture.tomato; Fixture.onion] (of_Z 50) (of_Z 40));
      [discriminate | reflexivity].
  - apply (update_charts_inverted_range
             [Fixture.tomato; Fixture.onion] nan (of_Z 40));
      [discriminate | reflexivity].
Defined.

(** X10: widening the range never loses a record: what the callback returns
    for [lo, hi] is returned for every [lo', hi'] with [lo' <= lo] and
    [hi <= hi']. *)
Theorem update_charts_monotone (D : list Row) (lo hi lo' hi' : float) :
  D <> [] ->
  le lo' lo = true ->
  le hi hi' = true ->
  exists bar_fig hist_fig shown bar_fig' hist_fig' shown',
    update_charts (pd_DataFrame D) [lo; hi] = Ok (bar_fig, hist_fig, shown)
    /\ update_charts (pd_DataFrame D) [lo'; hi']
       = Ok (bar_fig', hist_fig', shown')
    /\ incl shown shown'.
Proof.
  intros HD Hlo Hhi.
  rewrite (update_charts_nonempty D lo hi HD),
          (update_charts_nonempty D lo' hi' HD).
  do 6 eexists. split; [reflexivity|]. split; [reflexivity|].
  intros r Hr. apply filter_In in Hr as [Hin Hb]. apply filter_In.
  split; [exact Hin|]. apply andb_true_iff in Hb as [H1 H2].
  apply andb_true_iff. split.
  - unfold ge in *. eapply le_trans; [exact Hlo | exact H1].
  - eapply le_trans; [exact H2 | exact Hhi].
Qed.

Lemma update_charts_monotone_witness :
  exists bar_fig hist_fig shown bar_fig' hist_fig' shown',
    update_charts (pd_DataFrame [Fixture.tomato; Fixture.onion])
      [of_Z 42; of_Z 50] = Ok (bar_fig, hist_fig, shown)
    /\ update_charts (pd_DataFrame [Fixture.tomato; Fixture.onion])
         [of_Z 40; of_Z 50] = Ok (bar_fig', hist_fig', shown')
    /\ incl shown shown'.
Proof.
  apply (update_charts_monotone [Fixture.tomato; Fixture.onion]
           (of_Z 42) (of_Z 50) (of_Z 40) (of_Z 50)).
  - discriminate.
  - reflexivity.
  - reflexivity.
Defined.

(** X11: the callback reads the first two entries of [price_range] only: on
    a non-empty Dataset, a list of fewer than two entries raises
    [IndexError], and entries after the second are ignored. *)
Theorem update_charts_range_entries
    (D : list Row) (price_range : list float) :
  D <> [] ->
  match price_range with
  | lo :: hi :: _ =>
      update_charts (pd_DataFrame D) price_range
      = update_charts (pd_DataFrame D) [lo; hi]
  | _ => update_charts (pd_DataFrame D) price_range = Raise IndexError
  end.
Proof.
  intros HD.
  assert (Hcols : columns (pd_DataFrame D)
                  = ["Vegetable"; "Price Range"; "Min Price"]%string)
    by (destruct D; [congruence | reflexivity]).
  destruct price_range as [|lo [|hi rest]];
    unfold update_charts, getitem_Min_Price, has_column;
    rewrite Hcols; reflexivity.
Qed.

Lemma update_charts_range_entries_witness :
  update_charts (pd_DataFrame [Fixture.tomato]) [of_Z 40] = Raise IndexError.
Proof.
  apply (update_charts_range_entries [Fixture.tomato] [of_Z 40]).
  discriminate.
Defined.

(** ** Minimum and maximum of a series with NaN entries *)

Section SeriesMore.

Lemma fold_min_In (r : list float) (x : float) :
  In (fold_left (fun m v => if lt v m then v else m) r x) (x :: r).
Proof.
  revert x. induction r as [|v r IH]; intros x; [now left|].
  cbn [fold_left]. destruct (lt v x).
  - right. apply IH.
  - destruct (IH x) as [H|H]; [now left | right; now right].
Qed.

Lemma fold_max_In (r : list float) (x : float) :
  In (fold_left (fun m v => if lt m v then v else m) r x) (x :: r).
Proof.
  revert x. induction r as [|v r IH]; intros x; [now left|].
  cbn [fold_left]. destruct (lt x v).
  - right. apply IH.
  - destruct (IH x) as [H|H]; [now left | right; now right].
Qed.

Lemma filter_notnan_Forall (s : list float) :
  Forall (fun x => isnan x = false) (filter (fun x => negb (isnan x)) s).
Proof.
  apply Forall_forall. intros x Hx. apply filter_In in Hx as [_ Hx].
  now apply negb_true_iff in Hx.
Qed.

Lemma filter_notnan_nonempty (s : list float) (v : float) :
  In v s -> isnan v = false -> filter (fun x => negb (isnan x)) s <> [].
Proof.
  intros Hin Hv E.
  assert (H : In v (filter (fun x => negb (isnan x)) s))
    by (apply filter_In; split; [exact Hin | now rewrite Hv]).
  rewrite E in H. destruct H.
Qed.

(** With an entry that is not NaN, the minimum is such an entry. *)
Lemma Series_min_In (s : list float) (v : float) :
  In v s -> isnan v = false ->
  In (Series_min s) s /\ isnan (Series_min s) = false.
Proof.
  intros Hin Hv. unfold Series_min.
  pose proof (filter_notnan_nonempty s v Hin Hv) as Hne.
  pose proof (filter_notnan_Forall s) as Hall.
  destruct (filter (fun x => negb (isnan x)) s) as [|x r] eqn:E; [congruence|].
  pose proof (fold_min_In r x) as Hm. rewrite <- E in Hm.
  apply filter_In in Hm as [Hm1 Hm2]. split; [exact Hm1|].
  now apply negb_true_iff in Hm2.
Qed.

Lemma Series_max_In (s : list float) (v : float) :
  In v s -> isnan v = false ->
  In (Series_max s) s /\ isnan (Series_max s) = false.
Proof.
  intros Hin Hv. unfold Series_max.
  pose proof (filter_notnan_nonempty s v Hin Hv) as Hne.
  pose proof (filter_notnan_Forall s) as Hall.
  destruct (filter (fun x => negb (isnan x)) s) as [|x r] eqn:E; [congruence|].
  pose proof (fold_max_In r x) as Hm. rewrite <- E in Hm.
  apply filter_In in Hm as [Hm1 Hm2]. split; [exact Hm1|].
  now apply negb_true_iff in Hm2.
Qed.

(** The minimum is below every entry that is not NaN. *)
Lemma Series_min_le (s : list float) (v : float) :
  In v s -> isnan v = false -> le (Series_min s) v = true.
Proof.
  intros Hin Hv. unfold Series_min.
  assert (H : In v (filter (fun x => negb (isnan x)) s))
    by (apply filter_In; split; [exact Hin | now rewrite Hv]).
  pose proof (filter_notnan_Forall s) as Hall.
  destruct (filter (fun x => negb (isnan x)) s) as [|x r]; [destruct H|].
  destruct (fold_min_below r x (Forall_inv Hall) (Forall_inv_tail Hall))
    as [H1 H2].
  destruct H as [<-|H]; [exact H1|].
  rewrite Forall_forall in H2. exact (H2 v H).
Qed.

Lemma Series_max_ge (s : list float) (v : float) :
  In v s -> isnan v = false -> le v (Series_max s) = true.
Proof.
  intros Hin Hv. unfold Series_max.
  assert (H : In v (filter (fun x => negb (isnan x)) s))
    by (apply filter_In; split; [exact Hin | now rewrite Hv]).
  pose proof (filter_notnan_Forall s) as Hall.
  destruct (filter (fun x => negb (isnan x)) s) as [|x r]; [destruct H|].
  destruct (fold_max_above r x (Forall_inv Hall) (Forall_inv_tail Hall))
    as [H1 H2].
  destruct H as [<-|H]; [exact H1|].
  rewrite Forall_forall in H2. exact (H2 v H).
Qed.

Lemma filter_notnan_all_nan (s : list float) :
  Forall (fun x => isnan x = true) s ->
  filter (fun x => negb (isnan x)) s = [].
Proof.
  induction 1 as [|x s Hx _ IH]; [reflexivity|].
  cbn [filter]. rewrite Hx. exact IH.
Qed.

Lemma Series_min_all_nan (s : list float) :
  Forall (fun x => isnan x = true) s -> Series_min s = nan.
Proof.
  intros H. unfold Series_min. rewrite (filter_notnan_all_nan s H). reflexivity.
Qed.

Lemma le_neg_infinity (x : float) :
  le x (S754_infinity true) = true -> x = S754_infinity true.
Proof. destruct x as [[]|[]| |[] m e]; cbn; congruence. Qed.

Lemma le_pos_infinity (x : float) :
  le (S754_infinity false) x = true -> x = S754_infinity false.
Proof. destruct x as [[]|[]| |[] m e]; cbn; congruence. Qed.

Lemma to_int_ok (x : float) :
  isnan x = false -> is_infinite x = false -> exists n, to_int x = Ok n.
Proof. destruct x; cbn; try discriminate; eauto. Qed.

Lemma to_int_ok_inv (x : float) (n : Z) :
  to_int x = Ok n -> isnan x = false /\ is_infinite x = false.
Proof. destruct x; cbn; try discriminate; auto. Qed.

Lemma to_int_not_negative (x : float) (n : Z) :
  is_negative x = false -> to_int x = Ok n -> 0 <= n.
Proof.
  destruct x as [s|s| |s m e]; unfold is_negative, to_int; try discriminate.
  - intros _ [= <-]. lia.
  - intros -> H.
    assert (E : n = if 0 <=? e then Z.pos m * 2 ^ e else Z.pos m / 2 ^ (- e))
      by congruence.
    rewrite E. clear H E. destruct (0 <=? e) eqn:He.
    + apply Z.mul_nonneg_nonneg; [lia | apply Z.pow_nonneg; lia].
    + apply Z.leb_gt in He. apply Z.div_pos; [lia|].
      apply Z.pow_pos_nonneg; lia.
Qed.

(** The members of [range(start, stop, 20)]. *)
Lemma py_range_20_In (start stop k : Z) :
  In k (py_range start stop 20)
  <-> start <= k < stop /\ (k - start) mod 20 = 0.
Proof.
  unfold py_range. rewrite in_map_iff. split.
  - intros (i & <- & Hi). apply in_seq in Hi.
    pose proof (Z.div_mod (stop - start + 20 - 1) 20 ltac:(lia)) as Hd.
    pose proof (Z.mod_pos_bound (stop - start + 20 - 1) 20 ltac:(lia)) as Hm.
    assert (Hq : Z.of_nat i < (stop - start + 20 - 1) / 20) by lia.
    split; [lia|].
    replace (start + 20 * Z.of_nat i - start) with (Z.of_nat i * 20) by lia.
    apply Z.mod_mul. lia.
  - intros [Hk Hmod].
    pose proof (Z.div_mod (k - start) 20 ltac:(lia)) as Hd.
    rewrite Hmod in Hd.
    pose proof (Z.div_mod (stop - start + 20 - 1) 20 ltac:(lia)) as Hd'.
    pose proof (Z.mod_pos_bound (stop - start + 20 - 1) 20 ltac:(lia)) as Hm.
    exists (Z.to_nat ((k - start) / 20)). split; [lia|].
    apply in_seq. lia.
Qed.

End SeriesMore.

(** ** The dashboard *)

Section DashboardMore.

Lemma create_dashboard_nonempty
    (get : result Response) (D : list Row) :
  scrape_vegetable_prices get = Ok (pd_DataFrame D) ->
  D <> [] ->
  create_dashboard get
  = (start <- to_int (Series_min (List.map Min_Price D)) ;;
     stop <- to_int (Series_max (List.map Min_Price D)) ;;
     Ok (dashboard_of D start stop)).
Proof.
  intros Hrun HD. unfold create_dashboard. rewrite Hrun. cbn [bind].
  assert (Hcol : getitem_Min_Price (pd_DataFrame D)
                 = Ok (List.map Min_Price D))
    by (destruct D; [congruence | reflexivity]).
  rewrite Hcol. cbn [bind]. reflexivity.
Qed.

Lemma create_dashboard_ok_inv (get : result Response) (app : Dash) :
  create_dashboard get = Ok app ->
  exists D start stop,
    D <> []
    /\ scrape_vegetable_prices get = Ok (pd_DataFrame D)
    /\ to_int (Series_min (List.map Min_Price D)) = Ok start
    /\ to_int (Series_max (List.map Min_Price D)) = Ok stop
    /\ app = dashboard_of D start stop.
Proof.
  intros Happ.
  destruct (scrape_vegetable_prices get) as [df|e] eqn:Hrun;
    [|unfold create_dashboard in Happ; rewrite Hrun in Happ; discriminate].
  destruct (scrape_returns_records get df Hrun) as [rows ->].
  set (D := rows_records rows) in *.
  destruct D as [|r D'] eqn:ED.
  - unfold create_dashboard in Happ. rewrite Hrun in Happ. discriminate.
  - rewrite <- ED in *.
    assert (HD : D <> []) by (rewrite ED; discriminate).
    rewrite (create_dashboard_nonempty get D Hrun HD) in Happ.
    destruct (to_int (Series_min _)) as [start|] eqn:H1; [|discriminate].
    destruct (to_int (Series_max _)) as [stop|] eqn:H2; [|discriminate].
    cbn [bind] in Happ. injection Happ as <-.
    exists D, start, stop. auto.
Qed.

Lemma scrape_prices_not_negative
    (get : result Response) (df : DataFrame) (r : Row) :
  scrape_vegetable_prices get = Ok df ->
  In r (records df) ->
  is_negative (Min_Price r) = false.
Proof.
  intros Hrun Hin.
  destruct (scrape_returns_records get df Hrun) as [rows ->].
  apply rows_records_In in Hin as (row & _ & Hrec).
  eapply parse_price_not_negative, row_record_price, Hrec.
Qed.

Lemma isnan_is_infinite (x : float) : is_infinite x = true -> isnan x = false.
Proof. destruct x; cbn; congruence. Qed.

Lemma is_infinite_cases (x : float) :
  is_infinite x = true -> x = S754_infinity true \/ x = S754_infinity false.
Proof. destruct x as [|[]| |]; cbn; try discriminate; auto. Qed.

End DashboardMore.

(** X12: [create_dashboard] builds the dashboard only over a Dataset that
    has a record, has a price that is not NaN and has no infinite price: over
    any other Dataset the scraper returns it raises. *)
Theorem create_dashboard_builds_only_if
    (get : result Response) (df : DataFrame) (app : Dash) :
  scrape_vegetable_prices get = Ok df ->
  create_dashboard get = Ok app ->
  records df <> []
  /\ Exists (fun r => isnan (Min_Price r) = false) (records df)
  /\ Forall (fun r => is_infinite (Min_Price r) = false) (records df).
Proof.
  intros Hrun Happ.
  destruct (create_dashboard_ok_inv get app Happ)
    as (D & start & stop & HD & Hrun' & Hmin & Hmax & _).
  rewrite Hrun in Hrun'. injection Hrun' as ->. cbn [records pd_DataFrame].
  split; [exact HD|].
  apply to_int_ok_inv in Hmin as [Hmin1 Hmin2].
  apply to_int_ok_inv in Hmax as [Hmax1 Hmax2].
  split.
  - destruct (Forall_Exists_dec (fun r => isnan (Min_Price r) = true)
                (fun r => bool_dec (isnan (Min_Price r)) true) D)
      as [Hall|Hex].
    + rewrite Series_min_all_nan in Hmin1 by (apply Forall_map; exact Hall).
      discriminate.
    + eapply Exists_impl; [|exact Hex]. intros r Hr.
      now apply not_true_is_false.
  - apply Forall_forall. intros r Hr.
    destruct (is_infinite (Min_Price r)) eqn:Hinf; [exfalso|reflexivity].
    pose proof (isnan_is_infinite _ Hinf) as Hn.
    pose proof (in_map Min_Price D r Hr) as Hin.
    destruct (is_infinite_cases _ Hinf) as [E|E].
    + pose proof (Series_min_le _ _ Hin Hn) as Hle. rewrite E in Hle.
      apply le_neg_infinity in Hle. rewrite Hle in Hmin2. discriminate.
    + pose proof (Series_max_ge _ _ Hin Hn) as Hle. rewrite E in Hle.
      apply le_pos_infinity in Hle. rewrite Hle in Hmax2. discriminate.
Qed.

(** X13: over a non-empty Dataset returned by the scraper,
    [create_dashboard] raises [ValueError] when every price is NaN (the
    price text of every row was "nan") and [OverflowError] when some price is
    infinite (a price text such as "inf"): [int] refuses the bound. *)
Theorem create_dashboard_nan_inf_errors
    (get : result Response) (df : DataFrame) :
  scrape_vegetable_prices get = Ok df ->
  records df <> [] ->
  (Forall (fun r => isnan (Min_Price r) = true) (records df) ->
   create_dashboard get = Raise ValueError)
  /\ (Exists (fun r => is_infinite (Min_Price r) = true) (records df) ->
      create_dashboard get = Raise OverflowError).
Proof.
  intros Hrun Hne.
  destruct (scrape_returns_records get df Hrun) as [rows ->].
  cbn [records pd_DataFrame] in *. set (D := rows_records rows) in *.
  rewrite (create_dashboard_nonempty get D Hrun Hne). split.
  - intros Hall.
    rewrite Series_min_all_nan by (apply Forall_map; exact Hall). reflexivity.
  - intros Hex. apply Exists_exists in Hex as (r & Hr & Hinf).
    pose proof (isnan_is_infinite _ Hinf) as Hn.
    pose proof (in_map Min_Price D r Hr) as Hin.
    destruct (Series_min_In _ _ Hin Hn) as [_ Hmin].
    destruct (Series_max_In _ _ Hin Hn) as [_ Hmax].
    pose proof (Series_min_le _ _ Hin Hn) as Hle1.
    pose proof (Series_max_ge _ _ Hin Hn) as Hle2.
    destruct (Series_min (List.map Min_Price D)) as [s1|s1| |s1 m1 e1] eqn:Emin;
      try discriminate; try reflexivity;
      cbn [to_int bind];
      (destruct (is_infinite_cases _ Hinf) as [E|E]; rewrite E in *;
       [apply le_neg_infinity in Hle1; discriminate|
        apply le_pos_infinity in Hle2; rewrite Hle2; reflexivity]).
Qed.

Lemma create_dashboard_nan_inf_errors_witness :
  create_dashboard (Ok (mkResponse 200 Sample.only_nan)) = Raise ValueError
  /\ create_dashboard (Ok (mkResponse 200 Sample.inf_price))
     = Raise OverflowError.
Proof.
  split.
  - apply (create_dashboard_nan_inf_errors
             (Ok (mkResponse 200 Sample.only_nan))
             (pd_DataFrame [Fixture.okra_nan])).
    + vm_compute. reflexivity.
    + discriminate.
    + repeat constructor.
  - apply (create_dashboard_nan_inf_errors
             (Ok (mkResponse 200 Sample.inf_price))
             (pd_DataFrame [Fixture.tomato; Sample.okra_inf])).
    + vm_compute. reflexivity.
    + discriminate.
    + right. left. reflexivity.
Defined.

(** When [int(min)] succeeds, some price is not NaN and the minimum is the
    price of a record. *)
Lemma Series_min_of_record (D : list Row) (start : Z) :
  to_int (Series_min (List.map Min_Price D)) = Ok start ->
  (exists r, In r D /\ isnan (Min_Price r) = false)
  /\ (exists r, In r D /\ Min_Price r = Series_min (List.map Min_Price D)).
Proof.
  intros Hmin. apply to_int_ok_inv in Hmin as [Hmin _].
  assert (Hex : exists r, In r D /\ isnan (Min_Price r) = false).
  { destruct (Forall_Exists_dec (fun r => isnan (Min_Price r) = true)
                (fun r => bool_dec (isnan (Min_Price r)) true) D)
      as [Hall|Hex].
    - rewrite Series_min_all_nan in Hmin by (apply Forall_map; exact Hall).
      discriminate.
    - apply Exists_exists in Hex as (r & Hr & Hn). exists r.
      split; [exact Hr | now apply not_true_is_false]. }
  split; [exact Hex|]. destruct Hex as (r0 & Hr0 & Hn0).
  pose proof (in_map Min_Price D r0 Hr0) as Hin0.
  destruct (Series_min_In _ _ Hin0 Hn0) as [Hmem _].
  apply in_map_iff in Hmem as (rm & Em & Hrm). eauto.
Qed.

Lemma dashboard_min_not_negative
    (get : result Response) (D : list Row) (start : Z) :
  scrape_vegetable_prices get = Ok (pd_DataFrame D) ->
  to_int (Series_min (List.map Min_Price D)) = Ok start ->
  is_negative (Series_min (List.map Min_Price D)) = false.
Proof.
  intros Hrun Hmin.
  destruct (Series_min_of_record D start Hmin) as [_ (rm & Hrm & <-)].
  exact (scrape_prices_not_negative get (pd_DataFrame D) rm Hrun Hrm).
Qed.

Lemma four_rows_dashboard :
  create_dashboard (Ok (mkResponse 200 Fixture.four_rows))
  = Ok (dashboard_of [Fixture.tomato; Fixture.onion; Fixture.carrot] 30 45).
Proof.
  rewrite (create_dashboard_nonempty _
             [Fixture.tomato; Fixture.onion; Fixture.carrot]).
  - assert (H1 : to_int (Series_min
                           (List.map Min_Price
                              [Fixture.tomato; Fixture.onion; Fixture.carrot]))
                 = Ok 30) by (vm_compute; reflexivity).
    assert (H2 : to_int (Series_max
                           (List.map Min_Price
                              [Fixture.tomato; Fixture.onion; Fixture.carrot]))
                 = Ok 45) by (vm_compute; reflexivity).
    rewrite H1, H2. reflexivity.
  - vm_compute. reflexivity.
  - discriminate.
Qed.

Lemma create_dashboard_builds_only_if_witness :
  records (pd_DataFrame [Fixture.tomato; Fixture.onion; Fixture.carrot]) <> []
  /\ Exists (fun r => isnan (Min_Price r) = false)
       (records (pd_DataFrame [Fixture.tomato; Fixture.onion; Fixture.carrot]))
  /\ Forall (fun r => is_infinite (Min_Price r) = false)
       (records (pd_DataFrame [Fixture.tomato; Fixture.onion; Fixture.carrot])).
Proof.
  apply (create_dashboard_builds_only_if
           (Ok (mkResponse 200 Fixture.four_rows))
           (pd_DataFrame [Fixture.tomato; Fixture.onion; Fixture.carrot])
           (dashboard_of [Fixture.tomato; Fixture.onion; Fixture.carrot]
              30 45)).
  - vm_compute. reflexivity.
  - exact four_rows_dashboard.
Defined.

(** C2: the filter-update operation is the callback of a dashboard that
    [create_dashboard] has built: it is defined after the layout, over the
    Dataset [D] the dashboard shows.  For every such dashboard and every
    range [lo, hi] with [lo <= hi], it returns exactly the records of [D]
    with [lo <= Min Price <= hi], both ends included, in the order of [D]:
    every record returned is within the bounds and every record of [D]
    within the bounds is returned. *)
Theorem update_charts_filter
    (get : result Response) (app : Dash) (lo hi : float) :
  create_dashboard get = Ok app ->
  le lo hi = true ->
  let D := price_table_data app in
  scrape_vegetable_prices get = Ok (pd_DataFrame D)
  /\ exists bar_fig hist_fig filtered,
       price_filter_callback app [lo; hi] = Ok (bar_fig, hist_fig, filtered)
       /\ filtered
          = filter (fun r => le lo (Min_Price r) && le (Min_Price r) hi) D
       /\ (forall r, In r filtered ->
                     In r D /\ le lo (Min_Price r) = true
                     /\ le (Min_Price r) hi = true)
       /\ (forall r, In r D -> le lo (Min_Price r) = true ->
                     le (Min_Price r) hi = true -> In r filtered).
Proof.
  intros Happ _ D.
  destruct (create_dashboard_ok_inv get app Happ)
    as (D' & start & stop & HD & Hrun & _ & _ & ->).
  subst D. cbn [price_table_data price_filter_callback dashboard_of].
  split; [exact Hrun|]. exact (callback_filter_nonempty D' lo hi HD).
Qed.

Lemma update_charts_filter_witness :
  let app := dashboard_of [Fixture.tomato; Fixture.onion; Fixture.carrot] 30 45 in
  exists bar_fig hist_fig,
    price_filter_callback app [of_Z 42; of_Z 50]
    = Ok (bar_fig, hist_fig, [Fixture.onion]).
Proof.
  destruct (update_charts_filter
              (Ok (mkResponse 200 Fixture.four_rows))
              (dashboard_of [Fixture.tomato; Fixture.onion; Fixture.carrot]
                 30 45)
              (of_Z 42) (of_Z 50))
    as (_ & b & h & f & Hrun & Hf & _).
  - exact four_rows_dashboard.
  - reflexivity.
  - exists b, h. cbv zeta. rewrite Hrun, Hf. reflexivity.
Defined.

(** X14: in a dashboard that was built, the bounds of the slider bracket
    every price of the table that is not NaN, the lower bound is not above
    the upper one and is not negative, the initial value of the slider is
    its two bounds, and the table holds all the records of the Dataset. *)
Theorem create_dashboard_slider_bounds (get : result Response) (app : Dash) :
  create_dashboard get = Ok app ->
  let slider := price_filter app in
  scrape_vegetable_prices get = Ok (pd_DataFrame (price_table_data app))
  /\ slider_value slider = [slider_min slider; slider_max slider]
  /\ le (slider_min slider) (slider_max slider) = true
  /\ is_negative (slider_min slider) = false
  /\ (forall r, In r (price_table_data app) ->
                isnan (Min_Price r) = false ->
                le (slider_min slider) (Min_Price r) = true
                /\ le (Min_Price r) (slider_max slider) = true).
Proof.
  intros Happ slider.
  destruct (create_dashboard_ok_inv get app Happ)
    as (D & start & stop & HD & Hrun & Hmin & Hmax & ->).
  subst slider. cbn [price_filter price_table_data dashboard_of slider_value
                     slider_min slider_max].
  destruct (Series_min_of_record D start Hmin) as [(r0 & Hr0 & Hn0) _].
  pose proof (in_map Min_Price D r0 Hr0) as Hin0.
  split; [exact Hrun|]. split; [reflexivity|]. split; [|split].
  - eapply le_trans;
      [apply (Series_min_le _ _ Hin0 Hn0) | apply (Series_max_ge _ _ Hin0 Hn0)].
  - exact (dashboard_min_not_negative get D start Hrun Hmin).
  - intros r Hr Hn. pose proof (in_map Min_Price D r Hr) as Hin.
    split; [apply Series_min_le | apply Series_max_ge]; assumption.
Qed.

Lemma create_dashboard_slider_bounds_witness :
  let app := dashboard_of [Fixture.tomato; Fixture.onion; Fixture.carrot] 30 45 in
  le (slider_min (price_filter app)) (slider_max (price_filter app)) = true
  /\ is_negative (slider_min (price_filter app)) = false.
Proof.
  destruct (create_dashboard_slider_bounds
              (Ok (mkResponse 200 Fixture.four_rows))
              (dashboard_of [Fixture.tomato; Fixture.onion; Fixture.carrot]
                 30 45))
    as (_ & _ & H1 & H2 & _).
  - exact four_rows_dashboard.
  - split; [exact H1 | exact H2].
Defined.

(** X15: the first render shows everything: in a dashboard built over a
    Dataset without NaN price, the callback called with the initial value of
    the slider returns all the records of the table, in order. *)
Theorem create_dashboard_initial_render (get : result Response) (app : Dash) :
  create_dashboard get = Ok app ->
  Forall (fun r => isnan (Min_Price r) = false) (price_table_data app) ->
  exists bar_fig hist_fig,
    price_filter_callback app (slider_value (price_filter app))
    = Ok (bar_fig, hist_fig, price_table_data app).
Proof.
  intros Happ Hnan.
  destruct (create_dashboard_ok_inv get app Happ)
    as (D & start & stop & HD & _ & _ & _ & ->).
  cbn [price_filter price_table_data price_filter_callback dashboard_of
       slider_value] in *.
  rewrite (update_charts_nonempty D _ _ HD). do 2 eexists.
  rewrite filter_all; [reflexivity|].
  apply Forall_forall. intros r Hr. rewrite Forall_forall in Hnan.
  pose proof (in_map Min_Price D r Hr) as Hin.
  unfold ge.
  change (SFleb (Series_min (List.map Min_Price D)) (Min_Price r))
    with (le (Series_min (List.map Min_Price D)) (Min_Price r)).
  rewrite (Series_min_le _ _ Hin (Hnan r Hr)),
          (Series_max_ge _ _ Hin (Hnan r Hr)).
  reflexivity.
Qed.

Lemma create_dashboard_initial_render_witness :
  let app := dashboard_of [Fixture.tomato; Fixture.onion; Fixture.carrot] 30 45 in
  exists bar_fig hist_fig,
    price_filter_callback app (slider_value (price_filter app))
    = Ok (bar_fig, hist_fig, [Fixture.tomato; Fixture.onion; Fixture.carrot]).
Proof.
  apply (create_dashboard_initial_render
           (Ok (mkResponse 200 Fixture.four_rows))
           (dashboard_of [Fixture.tomato; Fixture.onion; Fixture.carrot] 30 45)).
  - exact four_rows_dashboard.
  - repeat constructor.
Defined.

(** X16: the tick marks of the slider of a dashboard that was built: with
    [start = int(min)] and [stop = int(max)], the marks are exactly the
    integers [start], [start + 20], ... below [stop], each labelled by the
    glyph followed by the integer in decimal; none of them is negative, and
    there is no mark at all when [stop <= start]. *)
Theorem create_dashboard_marks (get : result Response) (app : Dash) :
  create_dashboard get = Ok app ->
  let slider := price_filter app in
  exists start stop,
    to_int (slider_min slider) = Ok start
    /\ to_int (slider_max slider) = Ok stop
    /\ 0 <= start
    /\ (forall k label,
          In (k, label) (slider_marks slider)
          <-> (start <= k < stop /\ (k - start) mod 20 = 0
               /\ label = RUPEE ++ of_int k))
    /\ (stop <= start -> slider_marks slider = []).
Proof.
  intros Happ slider.
  destruct (create_dashboard_ok_inv get app Happ)
    as (D & start & stop & HD & Hrun & Hmin & Hmax & ->).
  pose proof (dashboard_min_not_negative get D start Hrun Hmin) as Hneg.
  subst slider. cbn [price_filter dashboard_of slider_min slider_max
                     slider_marks] in *.
  exists start, stop. split; [exact Hmin|]. split; [exact Hmax|].
  split; [exact (to_int_not_negative _ _ Hneg Hmin)|]. split.
  - intros k label. rewrite in_map_iff. split.
    + intros (i & [= <- <-] & Hi). apply py_range_20_In in Hi. tauto.
    + intros (Hk & Hmod & ->). exists k. split; [reflexivity|].
      apply py_range_20_In. tauto.
  - intros Hle.
    destruct (py_range start stop 20) as [|k ks] eqn:E; [reflexivity|].
    assert (Hin : In k (py_range start stop 20)) by (rewrite E; now left).
    apply py_range_20_In in Hin. lia.
Qed.

Lemma create_dashboard_marks_witness :
  let app := dashboard_of [Fixture.tomato; Fixture.onion; Fixture.carrot] 30 45 in
  exists start stop,
    to_int (slider_min (price_filter app)) = Ok start
    /\ to_int (slider_max (price_filter app)) = Ok stop
    /\ 0 <= start.
Proof.
  destruct (create_dashboard_marks
              (Ok (mkResponse 200 Fixture.four_rows))
              (dashboard_of [Fixture.tomato; Fixture.onion; Fixture.carrot]
                 30 45))
    as (s & t & H1 & H2 & H3 & _).
  - exact four_rows_dashboard.
  - exists s, t. auto.
Defined.
